(** * The portfolio site's service worker: caching strategies, offline
      fallback, background sync and cache lifecycle.

    The worker script registers listeners for the [install], [activate],
    [fetch] and [sync] events.  Each listener and each helper it calls is
    embedded below as a function over an explicit worker state: the
    [CacheStorage] (an ordered list of named buckets), the three analytics
    counters the script keeps in globals, and, for background sync, the
    IndexedDB object store of queued requests.  The network is a parameter:
    a function from a request to the outcome of [fetch] on it.

    Platform objects are modelled by what the script can observe of them.
    A request is its URL, method and destination; a response is its status,
    content type and body, and carries no [Vary] header.  A [Cache] is a
    finite map from request URL, without its fragment, to response; it
    answers GET requests only, and [cache.put] stores nothing when it
    rejects: for a request that is not a GET of an http(s) URL and for a
    response with status 206.  Storage operations do not fail otherwise.
    A promise is modelled by the value it settles with, [None] standing for
    JavaScript's [undefined]; a [cache.put] the script does not await is
    taken to have settled by the time the state is looked at again. *)

From Stdlib Require Import String Ascii ZArith Bool.
From stdpp Require Import base option list gmap strings sorting.

Local Open Scope string_scope.

(** ** Strings *)

(** [url.includes(needle)]: [needle] occurs somewhere in [hay]. *)
Fixpoint includes (needle hay : string) : bool :=
  String.prefix needle hay ||
  match hay with
  | EmptyString => false
  | String _ rest => includes needle rest
  end.

(** ** Constants of the worker script *)

Definition CACHE_NAME : string := "william-portfolio-v2".
Definition STATIC_CACHE : string := "static-v2".
Definition DYNAMIC_CACHE : string := "dynamic-v2".

Definition STATIC_ASSETS : list string :=
  [ "/";
    "/index.html";
    "/critical.css";
    "/styles.css";
    "/script-optimized.js";
    "/manifest.json" ].

Definition EXTERNAL_RESOURCES : list string :=
  [ "https://fonts.googleapis.com/css2?family=Inter:wght@300;400;500;600;700&display=swap";
    "https://fonts.gstatic.com/s/inter/v12/UcCO3FwrK3iLTeHuS_fvQtMwCp50KnMw2boKoduKmMEVuLyfAZ9hiA.woff2" ].

Inductive strategy := CACHE_FIRST | NETWORK_FIRST | STALE_WHILE_REVALIDATE.

(** ** Requests and responses *)

Record Request := mkRequest {
  url : string;
  method : string;
  destination : string
}.

Record Response := mkResponse {
  status : Z;
  contentType : option string;
  body : string
}.

(** [response.ok]: the status is in the range 200-299. *)
Definition ok (r : Response) : bool :=
  (200 <=? status r)%Z && (status r <=? 299)%Z.

(** ** The request classifier *)

Definition isStaticAsset (u : string) : bool :=
  existsb (fun asset => includes asset u) STATIC_ASSETS ||
  includes ".css" u ||
  includes ".js" u ||
  includes ".html" u.

Definition isExternalResource (u : string) : bool :=
  includes "fonts.googleapis.com" u ||
  includes "fonts.gstatic.com" u ||
  includes "cdnjs.cloudflare.com" u ||
  includes "unsplash.com" u.

Definition isAPIRequest (u : string) : bool :=
  includes "/api/" u ||
  includes ".json" u ||
  includes "sendgrid.com" u.

(** The four categories the classifier distinguishes. *)
Inductive category := StaticAsset | ExternalResource | APIRequest | Other.





(** ** The fetch event listener *)

(** What the listener does with the event: it returns without calling
    [event.respondWith] (the browser then handles the request as if there
    were no worker), or it answers with one of the strategies. *)
Inductive dispatch := PassThrough | RespondWith (s : strategy).

Definition fetch_listener (request : Request) : dispatch :=
  if negb (String.eqb (method request) "GET") then PassThrough
  else if isStaticAsset (url request) then RespondWith CACHE_FIRST
  else if isExternalResource (url request) then RespondWith STALE_WHILE_REVALIDATE
  else if isAPIRequest (url request) then RespondWith NETWORK_FIRST
  else RespondWith CACHE_FIRST.


(** The category the listener acts on: the one whose branch it takes. *)
Definition classify (u : string) : category :=
  if isStaticAsset u then StaticAsset
  else if isExternalResource u then ExternalResource
  else if isAPIRequest u then APIRequest
  else Other.

Definition strategy_of (c : category) : strategy :=
  match c with
  | StaticAsset => CACHE_FIRST
  | ExternalResource => STALE_WHILE_REVALIDATE
  | APIRequest => NETWORK_FIRST
  | Other => CACHE_FIRST
  end.

(** ** Cache storage *)

(** The URL under which the cache files a request: the request URL up to
    its fragment. *)
Fixpoint cache_key (u : string) : string :=
  match u with
  | EmptyString => EmptyString
  | String c rest =>
      if Ascii.eqb c "#" then EmptyString else String c (cache_key rest)
  end.

Definition http_scheme (u : string) : bool :=
  String.prefix "http://" u || String.prefix "https://" u.

(** The key a request is looked up under; a request that is not a GET
    matches nothing. *)
Definition request_key (request : Request) : option string :=
  if String.eqb (method request) "GET" then Some (cache_key (url request))
  else None.

(** The pairs [cache.put] accepts: a GET request for an http(s) URL and a
    response that is not partial content.  For any other pair the promise
    rejects and nothing is stored. *)
Definition cacheable (request : Request) (r : Response) : bool :=
  String.eqb (method request) "GET" &&
  http_scheme (url request) &&
  negb (status r =? 206)%Z.

(** [caches]: the buckets in creation order, each a map from key to the
    stored response. *)
Abbreviation Cache := (gmap string Response).
Abbreviation CacheStorage := (list (string * gmap string Response)).

Definition named (name : string) (c : string * Cache) : bool :=
  String.eqb (fst c) name.

Definition caches_has (name : string) (cs : CacheStorage) : bool :=
  List.existsb (named name) cs.

(** [caches.open(name)] creates the bucket when it does not exist. *)
Definition caches_open (name : string) (cs : CacheStorage) : CacheStorage :=
  if caches_has name cs then cs else (cs ++ [(name, ∅)])%list.

(** The content of the bucket called [name]. *)
Definition bucket (name : string) (cs : CacheStorage) : option Cache :=
  snd <$> List.find (named name) cs.

(** The response the bucket called [name] holds under [key]. *)
Definition cache_match (name key : string) (cs : CacheStorage) : option Response :=
  bucket name cs ≫= (fun c => c !! key).

(** [cache.match(request)] on the bucket called [name]. *)
Definition cache_match_request (name : string) (request : Request)
    (cs : CacheStorage) : option Response :=
  request_key request ≫= (fun key => cache_match name key cs).

(** The bucket called [name] with [r] filed under [key]. *)
Definition cache_store (name key : string) (r : Response) (cs : CacheStorage)
  : CacheStorage :=
  List.map (fun c => if named name c then (fst c, <[key := r]> (snd c)) else c) cs.

(** [cache.put(request, response)] on the bucket called [name]. *)
Definition cache_put (name : string) (request : Request) (r : Response)
    (cs : CacheStorage) : CacheStorage :=
  if cacheable request r then cache_store name (cache_key (url request)) r cs
  else cs.

(** [caches.delete(name)]. *)
Definition caches_delete (name : string) (cs : CacheStorage) : CacheStorage :=
  List.filter (fun c => negb (named name c)) cs.

(** [caches.keys()]. *)
Definition caches_keys (cs : CacheStorage) : list string := List.map fst cs.

(** What the first bucket, in creation order, that holds [key] holds
    under it. *)
Fixpoint first_entry (key : string) (cs : CacheStorage) : option Response :=
  match cs with
  | [] => None
  | c :: rest =>
      match snd c !! key with
      | Some r => Some r
      | None => first_entry key rest
      end
  end.

(** The platform's [caches.match(request)], which the script saves as
    [originalCacheMatch]: the first bucket that holds the request
    answers. *)
Definition originalCacheMatch (request : Request) (cs : CacheStorage)
  : option Response :=
  request_key request ≫= (fun key => first_entry key cs).

(** ** The network *)

(** A [fetch] promise either rejects (network error) or fulfils with a
    response of any status. *)
Inductive fetch_result := NetworkError | Fulfilled (r : Response).

(** The platform's [fetch], which the script saves as [originalFetch]. *)
Definition network := Request -> fetch_result.

(** ** Worker state: cache storage and the analytics counters *)

Record Worker := mkWorker {
  caches : CacheStorage;
  cacheHits : nat;
  cacheMisses : nat;
  networkRequests : nat
}.

Definition with_caches (f : CacheStorage -> CacheStorage) (st : Worker) : Worker :=
  mkWorker (f (caches st)) (cacheHits st) (cacheMisses st) (networkRequests st).

Definition count_hit (st : Worker) : Worker :=
  mkWorker (caches st) (S (cacheHits st)) (cacheMisses st) (networkRequests st).

Definition count_miss (st : Worker) : Worker :=
  mkWorker (caches st) (cacheHits st) (S (cacheMisses st)) (networkRequests st).

Definition count_request (st : Worker) : Worker :=
  mkWorker (caches st) (cacheHits st) (cacheMisses st) (S (networkRequests st)).

(** [caches.match] as the script replaces it: the original lookup, then one
    of the two counters goes up. *)
Definition caches_match (request : Request) (st : Worker)
  : option Response * Worker :=
  match originalCacheMatch request (caches st) with
  | Some r => (Some r, count_hit st)
  | None => (None, count_miss st)
  end.

(** [self.fetch] as the script replaces it: count, then the original. *)
Definition fetch (net : network) (request : Request) (st : Worker)
  : fetch_result * Worker :=
  (net request, count_request st).

Definition quote : string := String (ascii_of_nat 34) EmptyString.

(** The inline vector graphic served in place of an image. *)
Definition placeholder_svg : string :=
  "<svg xmlns=" ++ quote ++ "http://www.w3.org/2000/svg" ++ quote ++
  " width=" ++ quote ++ "300" ++ quote ++
  " height=" ++ quote ++ "200" ++ quote ++
  "><rect width=" ++ quote ++ "100%" ++ quote ++
  " height=" ++ quote ++ "100%" ++ quote ++
  " fill=" ++ quote ++ "#ddd" ++ quote ++
  "/><text x=" ++ quote ++ "50%" ++ quote ++
  " y=" ++ quote ++ "50%" ++ quote ++
  " text-anchor=" ++ quote ++ "middle" ++ quote ++
  " dy=" ++ quote ++ ".3em" ++ quote ++
  " font-family=" ++ quote ++ "Arial" ++ quote ++
  " font-size=" ++ quote ++ "14" ++ quote ++
  " fill=" ++ quote ++ "#999" ++ quote ++
  ">Image offline</text></svg>".

(** [new Response(svg, { headers: { 'Content-Type': 'image/svg+xml' } })]:
    the status defaults to 200. *)
Definition placeholder_image : Response :=
  mkResponse 200 (Some "image/svg+xml") placeholder_svg.

(** [new Response('Offline', { status: 503 })]: a text body gets the
    default text content type. *)
Definition offline_response : Response :=
  mkResponse 503 (Some "text/plain;charset=UTF-8") "Offline".

Section Strategies.

(** The origin the worker is served from; a path such as [/index.html]
    names the resource at that path on this origin.  An origin has no
    fragment: what follows a [#] in [origin] is not part of it. *)
Variable origin : string.

Definition absolute (u : string) : string :=
  if String.prefix "/" u then cache_key origin ++ u else u.

(** *** Offline fallback *)

Definition getOfflineFallback (request : Request) (st : Worker)
  : option Response * Worker :=
  if String.eqb (destination request) "document" then
    caches_match (mkRequest (absolute "/index.html") "GET" "") st
  else if String.eqb (destination request) "image" then
    (Some placeholder_image, st)
  else
    (Some offline_response, st).

(** *** Cache first *)

Definition cacheFirst (net : network) (request : Request) (st : Worker)
  : option Response * Worker :=
  let '(cachedResponse, st1) := caches_match request st in
  match cachedResponse with
  | Some r => (Some r, st1)
  | None =>
      let '(networkResponse, st2) := fetch net request st1 in
      match networkResponse with
      | Fulfilled r =>
          (Some r,
           if ok r then
             with_caches (fun cs => cache_put STATIC_CACHE request r
                                      (caches_open STATIC_CACHE cs)) st2
           else st2)
      | NetworkError => getOfflineFallback request st2
      end
  end.

(** *** Network first *)

Definition networkFirst (net : network) (request : Request) (st : Worker)
  : option Response * Worker :=
  let '(networkResponse, st1) := fetch net request st in
  match networkResponse with
  | Fulfilled r =>
      (Some r,
       if ok r then
         with_caches (fun cs => cache_put DYNAMIC_CACHE request r
                                  (caches_open DYNAMIC_CACHE cs)) st1
       else st1)
  | NetworkError =>
      let '(cachedResponse, st2) := caches_match request st1 in
      match cachedResponse with
      | Some r => (Some r, st2)
      | None => getOfflineFallback request st2
      end
  end.

(** *** Stale while revalidate *)

(** The handlers chained on the live fetch: the value [fetchPromise]
    settles with, and the state once it has settled. *)
Definition revalidate (request : Request) (cachedResponse : option Response)
    (outcome : fetch_result) (st : Worker) : option Response * Worker :=
  match outcome with
  | Fulfilled r =>
      (Some r,
       if ok r then with_caches (cache_put DYNAMIC_CACHE request r) st
       else st)
  | NetworkError => (cachedResponse, st)
  end.

(** [cachedResponse || fetchPromise]: the cached response when there is
    one, with the fetch left to settle on its own; the value of the fetch
    promise otherwise.  The state returned is the one after the fetch has
    settled. *)
Definition staleWhileRevalidate (net : network) (request : Request) (st : Worker)
  : option Response * Worker :=
  let st1 := with_caches (caches_open DYNAMIC_CACHE) st in
  let cachedResponse := cache_match_request DYNAMIC_CACHE request (caches st1) in
  let '(outcome, st2) := fetch net request st1 in
  let fetchPromise := revalidate request cachedResponse outcome st2 in
  (match cachedResponse with
   | Some r => Some r
   | None => fst fetchPromise
   end,
   snd fetchPromise).

End Strategies.

(** ** Cache lifecycle: the install and activate listeners *)

Inductive lifecycle_event :=
  | Deleted (cacheName : string)
  | ClientsClaimed.

(** The test of the activate listener: the name is neither of the two
    buckets of this version. *)
Definition stale (cacheName : string) : bool :=
  negb (String.eqb cacheName STATIC_CACHE) &&
  negb (String.eqb cacheName DYNAMIC_CACHE).

(** The activate listener: every stale name among [caches.keys()] is
    deleted, and when all deletions have settled the clients are claimed.
    The result is the sequence of platform calls and the storage left. *)
Definition activate (cs : CacheStorage) : list lifecycle_event * CacheStorage :=
  let doomed := List.filter stale (caches_keys cs) in
  ((List.map Deleted doomed ++ [ClientsClaimed])%list,
   fold_left (fun acc cacheName => caches_delete cacheName acc) doomed cs).

Section Install.

Variable origin : string.

(** A manifest entry is reachable when [addAll] can store it: its fetch
    is answered with an ok response, and the cache accepts the request and
    the response (an http(s) URL, no partial content). *)
Definition reachable (net : network) (u : string) : bool :=
  match net (mkRequest (absolute origin u) "GET" "") with
  | Fulfilled r => ok r && cacheable (mkRequest (absolute origin u) "GET" "") r
  | NetworkError => false
  end.

(** The fetches of [cache.addAll(urls)]: every URL must be reachable,
    otherwise there is no list of entries to store.  An entry is the key
    the request is filed under and the response. *)
Fixpoint fetch_all (net : network) (urls : list string)
  : option (list (string * Response)) :=
  match urls with
  | [] => Some []
  | u :: rest =>
      match net (mkRequest (absolute origin u) "GET" "") with
      | Fulfilled r =>
          if ok r && cacheable (mkRequest (absolute origin u) "GET" "") r
          then cons (cache_key (absolute origin u), r) <$> fetch_all net rest
          else None
      | NetworkError => None
      end
  end.

(** [cache.addAll(urls)] on the bucket called [name]: all entries are
    stored, or the promise rejects and the bucket is as it was.  It
    rejects, too, when two of the requests are filed under the same key. *)
Definition cache_addAll (net : network) (name : string) (urls : list string)
    (cs : CacheStorage) : bool * CacheStorage :=
  match fetch_all net urls with
  | Some entries =>
      if bool_decide (NoDup (fst <$> entries)) then
        (true,
         fold_left (fun acc e => cache_store name (fst e) (snd e) acc) entries cs)
      else (false, cs)
  | None => (false, cs)
  end.

(** How the promise handed to [event.waitUntil] settles: it rejects, and
    [self.skipWaiting()] is not reached, or it fulfils after the call of
    [self.skipWaiting()]. *)
Inductive install_outcome :=
  | InstallRejected
  | InstalledSkipWaiting.

(** The install listener: both buckets are opened and filled, and only
    when both [addAll] promises fulfil is [self.skipWaiting()] called. *)
Definition install (net : network) (cs : CacheStorage)
  : install_outcome * CacheStorage :=
  let '(static_done, cs1) :=
    cache_addAll net STATIC_CACHE STATIC_ASSETS (caches_open STATIC_CACHE cs) in
  let '(dynamic_done, cs2) :=
    cache_addAll net DYNAMIC_CACHE EXTERNAL_RESOURCES (caches_open DYNAMIC_CACHE cs1) in
  (if static_done && dynamic_done then InstalledSkipWaiting else InstallRejected,
   cs2).

End Install.

(** ** Background sync of queued form submissions *)

(** A record of the IndexedDB object store [requests]; the store's key
    path is the record's [id], so a record is kept under its id. *)
Record PendingRequest := mkPending {
  pending_url : string;
  pending_method : string;
  pending_headers : list (string * string);
  pending_body : string
}.

Abbreviation RequestStore := (gmap string PendingRequest).

(** The order of the keys of an object store. *)
Definition id_le (a b : string * PendingRequest) : Prop :=
  String.leb (fst a) (fst b) = true.

#[global] Instance id_le_dec (a b : string * PendingRequest) :
  Decision (id_le a b).
Proof. unfold id_le. apply _. Defined.

(** [getStoredRequests()]: all records, each with its id, in ascending
    order of the ids. *)
Definition getStoredRequests (store : RequestStore)
  : list (string * PendingRequest) :=
  merge_sort id_le (map_to_list store).

(** [removeStoredRequest(id)]. *)
Definition removeStoredRequest (id : string) (store : RequestStore)
  : RequestStore :=
  delete id store.

(** The outcome of replaying each record.  Every record is replayed once
    per sync, so a function of the record describes any behaviour of the
    network during one sync. *)
Definition replay_network := string * PendingRequest -> fetch_result.

(** One turn of the loop: the replay is attempted; when the fetch promise
    fulfils the record is removed, when it rejects the error is logged and
    the loop goes on.  The first component lists the ids replayed so far. *)
Definition replay (net : replay_network)
    (acc : list string * RequestStore) (request : string * PendingRequest)
  : list string * RequestStore :=
  match net request with
  | Fulfilled _ =>
      ((fst acc ++ [fst request])%list,
       removeStoredRequest (fst request) (snd acc))
  | NetworkError => ((fst acc ++ [fst request])%list, snd acc)
  end.

Definition syncContactForm (net : replay_network) (store : RequestStore)
  : list string * RequestStore :=
  fold_left (replay net) (getStoredRequests store) ([], store).

(** The replay of a record succeeds when its fetch promise fulfils, with a
    response of whatever status; it fails when the promise rejects. *)
Definition replay_succeeds (net : replay_network)
    (request : string * PendingRequest) : bool :=
  match net request with
  | Fulfilled _ => true
  | NetworkError => false
  end.

(** ** Concrete requests, responses and states used in the examples *)

Definition site : string := "https://williamadudonkor.example".

Definition font_stylesheet : Request :=
  mkRequest "https://fonts.googleapis.com/css2?family=Inter:wght@300;400;500;600;700&display=swap"
            "GET" "style".


Definition fresh_worker : Worker := mkWorker [] 0 0 0.

Definition page_200 : Response := mkResponse 200 (Some "text/html") "<html></html>".
Definition data_200 : Response := mkResponse 200 (Some "application/json") "{}".
Definition error_500 : Response := mkResponse 500 (Some "text/plain") "Internal Server Error".

Definition offline : network := fun _ => NetworkError.

Definition answers (r : Response) : network := fun _ => Fulfilled r.

(** A network on which everything but the font host can be reached. *)
Definition fonts_down : network :=
  fun request =>
    if includes "fonts." (url request) then NetworkError else Fulfilled page_200.

(** The storage left by an earlier version of the worker. *)
Definition old_storage : CacheStorage :=
  [("static-v1", {[ site ++ "/" := page_200 ]})].

Definition api_request : Request :=
  mkRequest (site ++ "/api/projects") "GET" "".
Definition page_request : Request :=
  mkRequest (site ++ "/about") "GET" "document".

Definition contact_form : PendingRequest :=
  mkPending "/contact" "POST" [("Content-Type", "application/json")] "{}".

Definition newsletter_form : PendingRequest :=
  mkPending "/subscribe" "POST" [] "email=a@b.c".

Definition queued : RequestStore :=
  {[ "abc" := contact_form; "def" := newsletter_form ]}.

(** The contact endpoint is down, everything else answers. *)
Definition contact_down : replay_network :=
  fun request =>
    if String.eqb (pending_url (snd request)) "/contact" then NetworkError
    else Fulfilled data_200.

(** A worker whose static bucket holds an answer to [page_request]. *)
Definition worker_with_page : Worker :=
  mkWorker [(STATIC_CACHE, {[ url page_request := page_200 ]})] 0 1 1.

(** A worker whose dynamic bucket holds an earlier answer to [api_request]. *)
Definition worker_with_data : Worker :=
  mkWorker [(DYNAMIC_CACHE, {[ url api_request := data_200 ]})] 0 0 0.

(** ** The rest of the worker script *)

(** What the fetch listener hands to [event.respondWith]: the strategy it
    picked, run on the request. *)
Definition run_strategy (origin : string) (s : strategy) (net : network)
    (request : Request) (st : Worker) : option Response * Worker :=
  match s with
  | CACHE_FIRST => cacheFirst origin net request st
  | NETWORK_FIRST => networkFirst origin net request st
  | STALE_WHILE_REVALIDATE => staleWhileRevalidate net request st
  end.

(** A fetch event from the listener to the settled answer: [None] when the
    listener returned without answering. *)
Definition handle_fetch (origin : string) (net : network) (request : Request)
    (st : Worker) : option (option Response * Worker) :=
  match fetch_listener request with
  | PassThrough => None
  | RespondWith s => Some (run_strategy origin s net request st)
  end.

(** [cache.keys()] on the bucket called [name]. *)
Definition cache_keys (name : string) (cs : CacheStorage) : list string :=
  match bucket name cs with
  | Some c => fst <$> map_to_list c
  | None => []
  end.

(** The answer of the network to a request that ends up in the cache: an
    ok response that [cache.put] accepts. *)
Definition fresh_answer (net : network) (request : Request) : option Response :=
  match net request with
  | Fulfilled r => if ok r && cacheable request r then Some r else None
  | NetworkError => None
  end.

(** One turn of the loop of [updateCache]: the stored request is fetched
    again and an ok response is put in its place; a failure of the fetch or
    of the put is logged and the loop goes on. *)
Definition refresh (net : network) (st : Worker) (key : string) : Worker :=
  let '(outcome, st1) := fetch net (mkRequest key "GET" "") st in
  match outcome with
  | Fulfilled r =>
      if ok r then
        with_caches (cache_put DYNAMIC_CACHE (mkRequest key "GET" "") r) st1
      else st1
  | NetworkError => st1
  end.

Definition updateCache (net : network) (st : Worker) : Worker :=
  let st1 := with_caches (caches_open DYNAMIC_CACHE) st in
  fold_left (refresh net) (cache_keys DYNAMIC_CACHE (caches st1)) st1.

(** The periodicsync listener. *)
Definition periodicsync_listener (tag : string) (net : network) (st : Worker)
  : Worker :=
  if String.eqb tag "cache-update" then updateCache net st else st.

(** The sync listener. *)
Definition sync_listener (tag : string) (net : replay_network)
    (store : RequestStore) : list string * RequestStore :=
  if String.eqb tag "contact-form" then syncContactForm net store
  else ([], store).

(** [getCacheSize()]: the number of entries, summed over the buckets. *)
Definition getCacheSize (cs : CacheStorage) : nat :=
  fold_left
    (fun totalSize cacheName =>
       totalSize + List.length (cache_keys cacheName (caches_open cacheName cs)))
    (caches_keys cs) 0.

Definition getNetworkRequestCount (st : Worker) : nat := networkRequests st.

(** ** More concrete data for the examples *)

Definition video_request : Request :=
  mkRequest (site ++ "/media/intro.mp4") "GET" "video".

(** A partial answer, as a range request gets it: its status is ok. *)
Definition partial_206 : Response :=
  mkResponse 206 (Some "video/mp4") "....".

Definition font_200 : Response := mkResponse 200 (Some "text/css") "@font-face{}".
Definition font_new : Response := mkResponse 200 (Some "text/css") "@font-face{a}".

(** A worker whose dynamic bucket holds the font stylesheet. *)
Definition worker_with_font : Worker :=
  mkWorker [(STATIC_CACHE, ∅);
            (DYNAMIC_CACHE, {[ url font_stylesheet := font_200 ]})] 0 0 0.

Definition always_answered : replay_network := fun _ => Fulfilled data_200.
Definition never_answered : replay_network := fun _ => NetworkError.

Example includes_ex1 : includes ".css" "https://x.org/a.css?v=1" = true.
Proof. reflexivity. Qed.
Example includes_ex2 : includes ".css" "https://fonts.googleapis.com/css2" = false.
Proof. reflexivity. Qed.
Example includes_ex3 : includes "" "" = true.
Proof. reflexivity. Qed.

(** * Properties *)

(** ** Classifier and dispatcher *)

Lemma includes_root_asset (u : string) :
  includes "/" u = true -> isStaticAsset u = true.
Proof.
  intros H. unfold isStaticAsset, STATIC_ASSETS. cbn [existsb].
  rewrite H. reflexivity.
Qed.

Lemma fetch_listener_not_GET (request : Request) :
  method request <> "GET" -> fetch_listener request = PassThrough.
Proof.
  intros H. unfold fetch_listener.
  destruct (String.eqb_spec (method request) "GET") as [E|_]; [contradiction|].
  reflexivity.
Qed.

Lemma fetch_listener_GET (request : Request) :
  method request = "GET" ->
  fetch_listener request = RespondWith (strategy_of (classify (url request))).
Proof.
  intros H. unfold fetch_listener, classify. rewrite H.
  change (negb (String.eqb "GET" "GET")) with false. cbv iota.
  destruct (isStaticAsset (url request)); [reflexivity|].
  destruct (isExternalResource (url request)); [reflexivity|].
  destruct (isAPIRequest (url request)); reflexivity.
Qed.

(** Every GET request whose URL contains a slash is answered cache-first,
    whatever the other two helpers say about it. *)
Lemma fetch_listener_slash (request : Request) :
  method request = "GET" ->
  includes "/" (url request) = true ->
  fetch_listener request = RespondWith CACHE_FIRST.
Proof.
  intros Hm Hs. rewrite (fetch_listener_GET _ Hm). unfold classify.
  rewrite (includes_root_asset _ Hs). reflexivity.
Qed.

(** C1.  The listener leaves non-GET requests alone, but it does not give
    an external resource the stale-while-revalidate strategy: the first
    URL of [EXTERNAL_RESOURCES], requested with GET, is accepted by
    [isExternalResource], contains none of the listed asset paths other
    than the root path and none of the three extensions, and is
    nevertheless answered cache-first, because the root path occurs in it
    as a substring. *)
Theorem fetch_listener_external_resource_cache_first :
  List.hd_error EXTERNAL_RESOURCES = Some (url font_stylesheet) /\
  method font_stylesheet = "GET" /\
  isExternalResource (url font_stylesheet) = true /\
  existsb (fun asset => includes asset (url font_stylesheet))
          (List.tl STATIC_ASSETS) = false /\
  includes ".css" (url font_stylesheet) = false /\
  includes ".js" (url font_stylesheet) = false /\
  includes ".html" (url font_stylesheet) = false /\
  includes "/" (url font_stylesheet) = true /\
  fetch_listener font_stylesheet = RespondWith CACHE_FIRST.
Proof. repeat split; vm_compute; reflexivity. Qed.






(** ** Cache storage *)

Lemma caches_has_open (name : string) (cs : CacheStorage) :
  caches_has name (caches_open name cs) = true.
Proof.
  unfold caches_open. destruct (caches_has name cs) eqn:E; [exact E|].
  unfold caches_has. rewrite existsb_app. cbn. unfold named. cbn.
  rewrite String.eqb_refl. apply orb_true_r.
Qed.

Lemma first_entry_app (key : string) (cs cs' : CacheStorage) :
  first_entry key (cs ++ cs') =
  match first_entry key cs with
  | Some r => Some r
  | None => first_entry key cs'
  end.
Proof.
  induction cs as [|c cs IH]; cbn; [reflexivity|].
  destruct (snd c !! key); [reflexivity | exact IH].
Qed.

(** Opening a bucket does not change what [caches.match] finds. *)
Lemma first_entry_open (name key : string) (cs : CacheStorage) :
  first_entry key (caches_open name cs) = first_entry key cs.
Proof.
  unfold caches_open. destruct (caches_has name cs); [reflexivity|].
  rewrite first_entry_app. cbn. rewrite lookup_empty.
  destruct (first_entry key cs); reflexivity.
Qed.

(** After a put, the bucket answers for the key. *)
Lemma cache_match_store (name key : string) (r : Response) (cs : CacheStorage) :
  caches_has name cs = true ->
  cache_match name key (cache_store name key r cs) = Some r.
Proof.
  unfold cache_match, bucket, cache_store, caches_has.
  induction cs as [|c cs IH]; cbn; [discriminate|].
  destruct (named name c) eqn:E.
  - intros _. unfold named at 1. cbn [fst]. unfold named in E. rewrite E.
    cbn. apply lookup_insert_eq.
  - cbn. rewrite E. exact IH.
Qed.

(** A put into a bucket leaves the other keys of that bucket alone. *)
Lemma cache_match_store_other (name key key' : string) (r : Response)
    (cs : CacheStorage) :
  key <> key' ->
  cache_match name key' (cache_store name key r cs) = cache_match name key' cs.
Proof.
  intros Hne. unfold cache_match, bucket, cache_store.
  induction cs as [|c cs IH]; cbn; [reflexivity|].
  destruct (named name c) eqn:E.
  - unfold named at 1. cbn [fst]. unfold named in E. rewrite E.
    cbn. apply lookup_insert_ne. exact Hne.
  - rewrite E. exact IH.
Qed.

(** A put into one bucket leaves every other bucket alone. *)
Lemma bucket_store_other (name name' key : string) (r : Response)
    (cs : CacheStorage) :
  name <> name' ->
  bucket name' (cache_store name key r cs) = bucket name' cs.
Proof.
  intros Hne. unfold bucket, cache_store.
  induction cs as [|[n m] cs IH]; cbn [List.map List.find]; [reflexivity|].
  destruct (named name (n, m)) eqn:E1.
  - apply String.eqb_eq in E1. cbn in E1. subst n.
    assert (E2 : forall m', named name' (name, m') = false).
    { intros m'. unfold named. cbn. apply String.eqb_neq. exact Hne. }
    cbn [fst snd]. rewrite !E2. exact IH.
  - destruct (named name' (n, m)); [reflexivity | exact IH].
Qed.

Lemma caches_has_store (name name' key : string) (r : Response)
    (cs : CacheStorage) :
  caches_has name' (cache_store name key r cs) = caches_has name' cs.
Proof.
  unfold caches_has, cache_store.
  induction cs as [|c cs IH]; cbn; [reflexivity|].
  rewrite IH. destruct (named name c); reflexivity.
Qed.

(** Opening a bucket leaves the content of every bucket that exists alone,
    and the new bucket is empty. *)
Lemma bucket_open_other (name name' : string) (cs : CacheStorage) :
  name <> name' ->
  bucket name' (caches_open name cs) = bucket name' cs.
Proof.
  intros Hne. unfold caches_open. destruct (caches_has name cs); [reflexivity|].
  unfold bucket. induction cs as [|c cs IH]; cbn.
  - unfold named. cbn.
    destruct (String.eqb_spec name name') as [E|_]; [congruence | reflexivity].
  - destruct (named name' c); [reflexivity | exact IH].
Qed.

(** After a miss in every bucket, a put makes [caches.match] find the
    response just stored. *)
Lemma first_entry_store (name key : string) (r : Response)
    (cs : CacheStorage) :
  caches_has name cs = true ->
  first_entry key cs = None ->
  first_entry key (cache_store name key r cs) = Some r.
Proof.
  unfold caches_has, cache_store.
  induction cs as [|c cs IH]; cbn; [discriminate|].
  destruct (snd c !! key) eqn:L; [discriminate|].
  destruct (named name c) eqn:E; cbn.
  - intros _ _. rewrite lookup_insert_eq. reflexivity.
  - rewrite L. exact IH.
Qed.

Lemma cache_match_open (name key : string) (cs : CacheStorage) :
  cache_match name key (caches_open name cs) = cache_match name key cs.
Proof.
  unfold caches_open, caches_has. destruct (existsb (named name) cs) eqn:E;
    [reflexivity|].
  unfold cache_match, bucket. induction cs as [|c cs IH]; cbn.
  - unfold named. cbn. rewrite String.eqb_refl. cbn. apply lookup_empty.
  - cbn in E. apply orb_false_elim in E as [E1 E2]. rewrite E1. apply IH, E2.
Qed.

(** Opening a bucket changes no entry of any bucket. *)
Lemma cache_match_open_any (name n key : string) (cs : CacheStorage) :
  cache_match name key (caches_open n cs) = cache_match name key cs.
Proof.
  destruct (String.eqb_spec n name) as [->|Hn].
  - apply cache_match_open.
  - unfold cache_match. rewrite bucket_open_other by exact Hn. reflexivity.
Qed.

(** ** Requests at the cache *)

Lemma cache_key_idempotent (u : string) : cache_key (cache_key u) = cache_key u.
Proof.
  induction u as [|c u IH]; cbn; [reflexivity|].
  destruct (Ascii.eqb c "#") eqn:E; cbn; [reflexivity|].
  rewrite E, IH. reflexivity.
Qed.

Lemma cache_key_append (a b : string) :
  cache_key (cache_key a ++ b) = cache_key a ++ cache_key b.
Proof.
  induction a as [|c a IH]; [reflexivity|].
  cbn [cache_key]. destruct (Ascii.eqb c "#") eqn:E; [reflexivity|].
  change (String c (cache_key a) ++ b) with (String c (cache_key a ++ b)).
  change (String c (cache_key a) ++ cache_key b)
    with (String c (cache_key a ++ cache_key b)).
  cbn [cache_key]. rewrite E, IH. reflexivity.
Qed.

Lemma originalCacheMatch_open (name : string) (request : Request)
    (cs : CacheStorage) :
  originalCacheMatch request (caches_open name cs) = originalCacheMatch request cs.
Proof.
  unfold originalCacheMatch. destruct (request_key request); cbn;
    [apply first_entry_open | reflexivity].
Qed.

(** A put leaves the buckets of other names alone, whether or not it is
    accepted. *)
Lemma bucket_cache_put_other (name name' : string) (request : Request)
    (r : Response) (cs : CacheStorage) :
  name <> name' ->
  bucket name' (cache_put name request r cs) = bucket name' cs.
Proof.
  intros Hne. unfold cache_put. destruct (cacheable request r);
    [apply bucket_store_other, Hne | reflexivity].
Qed.

Lemma caches_has_cache_put (name name' : string) (request : Request)
    (r : Response) (cs : CacheStorage) :
  caches_has name' (cache_put name request r cs) = caches_has name' cs.
Proof.
  unfold cache_put. destruct (cacheable request r);
    [apply caches_has_store | reflexivity].
Qed.

(** An accepted put is answered by the bucket, under the key of the
    request. *)
Lemma cache_match_cache_put (name : string) (request : Request) (r : Response)
    (cs : CacheStorage) :
  caches_has name cs = true ->
  cacheable request r = true ->
  cache_match name (cache_key (url request)) (cache_put name request r cs) =
  Some r.
Proof.
  intros Hhas Hc. unfold cache_put. rewrite Hc. apply cache_match_store, Hhas.
Qed.

Lemma cacheable_request_key (request : Request) (r : Response) :
  cacheable request r = true ->
  request_key request = Some (cache_key (url request)).
Proof.
  unfold cacheable, request_key. intros H.
  apply andb_true_iff in H as [H _]. apply andb_true_iff in H as [-> _].
  reflexivity.
Qed.

(** After a miss in every bucket, an accepted put makes [caches.match] find
    the response just stored. *)
Lemma originalCacheMatch_cache_put (name : string) (request : Request)
    (r : Response) (cs : CacheStorage) :
  caches_has name cs = true ->
  cacheable request r = true ->
  originalCacheMatch request cs = None ->
  originalCacheMatch request (cache_put name request r cs) = Some r.
Proof.
  intros Hhas Hc. unfold originalCacheMatch, cache_put.
  rewrite Hc, (cacheable_request_key request r Hc). cbn.
  apply first_entry_store, Hhas.
Qed.

(** ** Offline fallback *)

Lemma getOfflineFallback_image (origin : string) (request : Request) (st : Worker) :
  destination request = "image" ->
  getOfflineFallback origin request st = (Some placeholder_image, st).
Proof. intros H. unfold getOfflineFallback. rewrite H. reflexivity. Qed.

Lemma placeholder_image_ok :
  ok placeholder_image = true /\
  contentType placeholder_image = Some "image/svg+xml".
Proof. split; reflexivity. Qed.

Lemma getOfflineFallback_other (origin : string) (request : Request) (st : Worker) :
  destination request <> "document" ->
  destination request <> "image" ->
  getOfflineFallback origin request st = (Some offline_response, st) /\
  status offline_response = 503%Z.
Proof.
  intros Hd Hi. unfold getOfflineFallback.
  destruct (String.eqb_spec (destination request) "document"); [contradiction|].
  destruct (String.eqb_spec (destination request) "image"); [contradiction|].
  split; reflexivity.
Qed.

Lemma getOfflineFallback_document (origin : string) (request : Request) (st : Worker) :
  destination request = "document" ->
  fst (getOfflineFallback origin request st) =
  originalCacheMatch (mkRequest (absolute origin "/index.html") "GET" "")
    (caches st).
Proof.
  intros H. unfold getOfflineFallback, caches_match. rewrite H.
  change (String.eqb "document" "document") with true. cbv iota.
  destruct (originalCacheMatch _ _); reflexivity.
Qed.

(** The fallback never touches the buckets and never fetches. *)
Lemma getOfflineFallback_state (origin : string) (request : Request) (st : Worker) :
  caches (snd (getOfflineFallback origin request st)) = caches st /\
  networkRequests (snd (getOfflineFallback origin request st)) = networkRequests st.
Proof.
  unfold getOfflineFallback, caches_match.
  destruct (String.eqb _ "document").
  - destruct (originalCacheMatch _ _); split; reflexivity.
  - destruct (String.eqb _ "image"); split; reflexivity.
Qed.

(** C4.  The fallback for a page does not always produce a response: for
    a document request, when the root page is in no bucket, the lookup of
    the root page finds nothing and that nothing is the result, both of
    [getOfflineFallback] and of the cache-first strategy that called it
    after a failed fetch. *)
Theorem getOfflineFallback_document_without_root_page :
  destination page_request = "document" /\
  originalCacheMatch (mkRequest (absolute site "/index.html") "GET" "")
    (caches fresh_worker) = None /\
  fst (getOfflineFallback site page_request fresh_worker) = None /\
  fst (cacheFirst site offline page_request fresh_worker) = None.
Proof. repeat split; vm_compute; reflexivity. Qed.

(** ** Cache first *)

Lemma cacheFirst_hit (origin : string) (net : network) (request : Request)
    (st : Worker) (cached : Response) :
  originalCacheMatch request (caches st) = Some cached ->
  cacheFirst origin net request st = (Some cached, count_hit st).
Proof. intros H. unfold cacheFirst, caches_match. rewrite H. reflexivity. Qed.

Lemma cacheFirst_miss (origin : string) (net : network) (request : Request)
    (st : Worker) :
  originalCacheMatch request (caches st) = None ->
  cacheFirst origin net request st =
  match net request with
  | Fulfilled r =>
      (Some r,
       if ok r then
         with_caches (fun cs => cache_put STATIC_CACHE request r
                                  (caches_open STATIC_CACHE cs))
                     (count_request (count_miss st))
       else count_request (count_miss st))
  | NetworkError => getOfflineFallback origin request (count_request (count_miss st))
  end.
Proof. intros H. unfold cacheFirst, caches_match, fetch. rewrite H. reflexivity. Qed.

(** C6, as stated, fails: a successful fetch result is not always stored.
    A request that was in no bucket is answered with status 206, which is
    ok; the response is returned, [cache.put] rejects it, the request is
    still in no bucket, and the same request made again is fetched again. *)
Lemma cacheFirst_partial_answer_not_stored :
  originalCacheMatch video_request (caches fresh_worker) = None /\
  ok partial_206 = true /\
  fst (cacheFirst site (answers partial_206) video_request fresh_worker) =
    Some partial_206 /\
  originalCacheMatch video_request
    (caches (snd (cacheFirst site (answers partial_206) video_request
                    fresh_worker))) = None /\
  networkRequests
    (snd (cacheFirst site (answers partial_206) video_request
            (snd (cacheFirst site (answers partial_206) video_request
                    fresh_worker)))) = 2.
Proof. repeat split; vm_compute; reflexivity. Qed.

(** C6, amended.  Cache first: a hit is returned as it is, with the
    request counter and the buckets untouched; a miss costs one live
    fetch; when that fetch is answered with an ok response that
    [cache.put] accepts (a GET of an http(s) URL, a status other than 206),
    the response is returned, the static bucket holds it under the
    request, and the same request made again, on any network, is a hit
    that returns it without a fetch; an ok response that [cache.put] does
    not accept is returned and the request stays in no bucket. *)
Theorem cacheFirst_hit_or_one_fetch (origin : string) (net net' : network)
    (request : Request) (st : Worker) :
  (forall cached,
      originalCacheMatch request (caches st) = Some cached ->
      cacheFirst origin net request st = (Some cached, count_hit st) /\
      networkRequests (count_hit st) = networkRequests st /\
      caches (count_hit st) = caches st) /\
  (originalCacheMatch request (caches st) = None ->
      networkRequests (snd (cacheFirst origin net request st)) =
      S (networkRequests st)) /\
  (forall r,
      originalCacheMatch request (caches st) = None ->
      net request = Fulfilled r ->
      ok r = true ->
      cacheable request r = true ->
      let st' := snd (cacheFirst origin net request st) in
      fst (cacheFirst origin net request st) = Some r /\
      cache_match STATIC_CACHE (cache_key (url request)) (caches st') = Some r /\
      cacheFirst origin net' request st' = (Some r, count_hit st') /\
      networkRequests (count_hit st') = networkRequests st') /\
  (forall r,
      originalCacheMatch request (caches st) = None ->
      net request = Fulfilled r ->
      ok r = true ->
      cacheable request r = false ->
      fst (cacheFirst origin net request st) = Some r /\
      originalCacheMatch request
        (caches (snd (cacheFirst origin net request st))) = None).
Proof.
  split; [|split; [|split]].
  - intros cached H. rewrite (cacheFirst_hit _ _ _ _ _ H). auto.
  - intros H. rewrite (cacheFirst_miss _ _ _ _ H).
    destruct (net request) as [|r].
    + destruct (getOfflineFallback_state origin request
                  (count_request (count_miss st))) as [_ ->]. reflexivity.
    + cbn [snd]. destruct (ok r); reflexivity.
  - intros r Hmiss Hnet Hok Hc st'. subst st'.
    rewrite (cacheFirst_miss _ _ _ _ Hmiss), Hnet, Hok. cbn [fst snd].
    split; [reflexivity|]. split; [|split; [|reflexivity]].
    + cbn [caches with_caches]. apply cache_match_cache_put;
        [apply caches_has_open | exact Hc].
    + apply cacheFirst_hit. cbn [caches with_caches].
      apply originalCacheMatch_cache_put; [apply caches_has_open | exact Hc |].
      rewrite originalCacheMatch_open. exact Hmiss.
  - intros r Hmiss Hnet Hok Hc.
    rewrite (cacheFirst_miss _ _ _ _ Hmiss), Hnet, Hok. cbn [fst snd].
    split; [reflexivity|]. cbn [caches with_caches]. unfold cache_put.
    rewrite Hc, originalCacheMatch_open. exact Hmiss.
Qed.

Lemma cacheFirst_example :
  cacheFirst site (answers page_200) page_request fresh_worker =
  (Some page_200,
   mkWorker [(STATIC_CACHE, {[ url page_request := page_200 ]})] 0 1 1).
Proof. vm_compute. reflexivity. Qed.

Lemma cacheFirst_hit_or_one_fetch_witness :
  cacheFirst site offline page_request worker_with_page =
    (Some page_200, count_hit worker_with_page) /\
  networkRequests (snd (cacheFirst site offline page_request fresh_worker)) = 1 /\
  cacheFirst site offline page_request
    (snd (cacheFirst site (answers page_200) page_request fresh_worker)) =
  (Some page_200,
   count_hit (snd (cacheFirst site (answers page_200) page_request fresh_worker))) /\
  originalCacheMatch video_request
    (caches (snd (cacheFirst site (answers partial_206) video_request
                    fresh_worker))) = None.
Proof.
  split; [|split; [|split]].
  - destruct (cacheFirst_hit_or_one_fetch site offline offline
                page_request worker_with_page) as (H & _ & _).
    destruct (H page_200) as (H' & _); [reflexivity | exact H'].
  - destruct (cacheFirst_hit_or_one_fetch site offline offline
                page_request fresh_worker) as (_ & H & _).
    apply H. reflexivity.
  - destruct (cacheFirst_hit_or_one_fetch site (answers page_200) offline
                page_request fresh_worker) as (_ & _ & H & _).
    destruct (H page_200) as (_ & _ & H' & _);
      [reflexivity | reflexivity | reflexivity | reflexivity | exact H'].
  - destruct (cacheFirst_hit_or_one_fetch site (answers partial_206) offline
                video_request fresh_worker) as (_ & _ & _ & H).
    destruct (H partial_206) as (_ & H');
      [reflexivity | reflexivity | reflexivity | reflexivity | exact H'].
Defined.

(** ** Network first *)

Lemma networkFirst_fulfilled (origin : string) (net : network)
    (request : Request) (st : Worker) (r : Response) :
  net request = Fulfilled r ->
  networkFirst origin net request st =
  (Some r,
   if ok r then
     with_caches (fun cs => cache_put DYNAMIC_CACHE request r
                              (caches_open DYNAMIC_CACHE cs))
                 (count_request st)
   else count_request st).
Proof. intros H. unfold networkFirst, fetch. rewrite H. reflexivity. Qed.

Lemma networkFirst_rejected (origin : string) (net : network)
    (request : Request) (st : Worker) :
  net request = NetworkError ->
  networkFirst origin net request st =
  match originalCacheMatch request (caches st) with
  | Some cached => (Some cached, count_hit (count_request st))
  | None => getOfflineFallback origin request (count_miss (count_request st))
  end.
Proof.
  intros H. unfold networkFirst, fetch, caches_match. rewrite H.
  cbn [caches count_request].
  destruct (originalCacheMatch _ _); reflexivity.
Qed.

(** C2, as stated, fails: the live fetch is answered with status 500 while
    the dynamic bucket holds an earlier answer to the same request, and the
    strategy returns the 500 response, not the cached entry. *)
Lemma networkFirst_returns_error_response :
  answers error_500 api_request = Fulfilled error_500 /\
  ok error_500 = false /\
  originalCacheMatch api_request (caches worker_with_data) = Some data_200 /\
  fst (networkFirst site (answers error_500) api_request worker_with_data) =
    Some error_500 /\
  error_500 <> data_200.
Proof. repeat split; try (vm_compute; reflexivity). discriminate. Qed.

(** C2, amended.  Network first: when the live fetch rejects with a
    network error the cached entry is returned if there is one and the
    offline fallback is applied otherwise; when the fetch is answered with
    an ok response that [cache.put] accepts (a GET of an http(s) URL, a
    status other than 206), that response is stored in the dynamic bucket
    and returned; an ok response that [cache.put] does not accept is
    returned and no entry of any bucket changes; a response with any other
    status is returned as it is, without being stored and without a look
    at the cache. *)
Theorem networkFirst_prefers_any_answer (origin : string) (net : network)
    (request : Request) (st : Worker) :
  (forall cached,
      net request = NetworkError ->
      originalCacheMatch request (caches st) = Some cached ->
      fst (networkFirst origin net request st) = Some cached) /\
  (net request = NetworkError ->
      originalCacheMatch request (caches st) = None ->
      networkFirst origin net request st =
      getOfflineFallback origin request (count_miss (count_request st))) /\
  (forall r,
      net request = Fulfilled r ->
      ok r = true ->
      cacheable request r = true ->
      fst (networkFirst origin net request st) = Some r /\
      cache_match DYNAMIC_CACHE (cache_key (url request))
        (caches (snd (networkFirst origin net request st))) = Some r) /\
  (forall r,
      net request = Fulfilled r ->
      ok r = true ->
      cacheable request r = false ->
      fst (networkFirst origin net request st) = Some r /\
      forall name key,
        cache_match name key (caches (snd (networkFirst origin net request st))) =
        cache_match name key (caches st)) /\
  (forall r,
      net request = Fulfilled r ->
      ok r = false ->
      networkFirst origin net request st = (Some r, count_request st)).
Proof.
  split; [|split; [|split; [|split]]].
  - intros cached Hnet Hc. rewrite (networkFirst_rejected _ _ _ _ Hnet), Hc.
    reflexivity.
  - intros Hnet Hc. rewrite (networkFirst_rejected _ _ _ _ Hnet), Hc.
    reflexivity.
  - intros r Hnet Hok Hc. rewrite (networkFirst_fulfilled _ _ _ _ _ Hnet), Hok.
    split; [reflexivity|]. cbn [snd caches with_caches].
    apply cache_match_cache_put; [apply caches_has_open | exact Hc].
  - intros r Hnet Hok Hc. rewrite (networkFirst_fulfilled _ _ _ _ _ Hnet), Hok.
    split; [reflexivity|]. intros name key. cbn [snd caches with_caches].
    unfold cache_put. rewrite Hc. apply cache_match_open_any.
  - intros r Hnet Hok. rewrite (networkFirst_fulfilled _ _ _ _ _ Hnet), Hok.
    reflexivity.
Qed.

Lemma networkFirst_prefers_any_answer_witness :
  fst (networkFirst site offline api_request worker_with_data) = Some data_200 /\
  networkFirst site offline api_request fresh_worker =
    getOfflineFallback site api_request (count_miss (count_request fresh_worker)) /\
  cache_match DYNAMIC_CACHE (cache_key (url api_request))
    (caches (snd (networkFirst site (answers data_200) api_request fresh_worker))) =
    Some data_200 /\
  fst (networkFirst site (answers partial_206) video_request fresh_worker) =
    Some partial_206 /\
  networkFirst site (answers error_500) api_request worker_with_data =
    (Some error_500, count_request worker_with_data).
Proof.
  split; [|split; [|split; [|split]]].
  - destruct (networkFirst_prefers_any_answer site offline api_request
                worker_with_data) as (H & _).
    apply H; reflexivity.
  - destruct (networkFirst_prefers_any_answer site offline api_request
                fresh_worker) as (_ & H & _).
    apply H; reflexivity.
  - destruct (networkFirst_prefers_any_answer site (answers data_200)
                api_request fresh_worker) as (_ & _ & H & _).
    destruct (H data_200) as (_ & H');
      [reflexivity | reflexivity | reflexivity | exact H'].
  - destruct (networkFirst_prefers_any_answer site (answers partial_206)
                video_request fresh_worker) as (_ & _ & _ & H & _).
    destruct (H partial_206) as (H' & _);
      [reflexivity | reflexivity | reflexivity | exact H'].
  - destruct (networkFirst_prefers_any_answer site (answers error_500)
                api_request worker_with_data) as (_ & _ & _ & _ & H).
    apply H; reflexivity.
Defined.

(** ** Only ok responses are stored *)

Lemma cacheFirst_changes_caches (origin : string) (net : network)
    (request : Request) (st : Worker) :
  caches (snd (cacheFirst origin net request st)) <> caches st ->
  exists r, net request = Fulfilled r /\ ok r = true.
Proof.
  intros Hch. unfold cacheFirst, caches_match, fetch in Hch.
  destruct (originalCacheMatch request (caches st)).
  - exfalso. apply Hch. reflexivity.
  - destruct (net request) as [|r].
    + exfalso. apply Hch.
      destruct (getOfflineFallback_state origin request
                  (count_request (count_miss st))) as [-> _]. reflexivity.
    + exists r. split; [reflexivity|].
      destruct (ok r); [reflexivity|]. exfalso. apply Hch. reflexivity.
Qed.

Lemma networkFirst_changes_caches (origin : string) (net : network)
    (request : Request) (st : Worker) :
  caches (snd (networkFirst origin net request st)) <> caches st ->
  exists r, net request = Fulfilled r /\ ok r = true.
Proof.
  intros Hch. unfold networkFirst, caches_match, fetch in Hch.
  destruct (net request) as [|r].
  - exfalso. apply Hch. cbn [caches count_request].
    destruct (originalCacheMatch request (caches st)); [reflexivity|].
    destruct (getOfflineFallback_state origin request
                (count_miss (count_request st))) as [-> _]. reflexivity.
  - exists r. split; [reflexivity|].
    destruct (ok r); [reflexivity|]. exfalso. apply Hch. reflexivity.
Qed.

(** C10.  In cache first (after a miss) and in network first, a response
    whose status is not ok is handed to the caller and every bucket is as
    it was before; and whenever either strategy leaves the buckets changed,
    the live fetch was answered with an ok response. *)
Theorem non_ok_response_is_not_stored (origin : string) (net : network)
    (request : Request) (st : Worker) :
  (forall r,
      net request = Fulfilled r ->
      ok r = false ->
      (originalCacheMatch request (caches st) = None ->
       fst (cacheFirst origin net request st) = Some r /\
       caches (snd (cacheFirst origin net request st)) = caches st) /\
      fst (networkFirst origin net request st) = Some r /\
      caches (snd (networkFirst origin net request st)) = caches st) /\
  (caches (snd (cacheFirst origin net request st)) <> caches st ->
      exists r, net request = Fulfilled r /\ ok r = true) /\
  (caches (snd (networkFirst origin net request st)) <> caches st ->
      exists r, net request = Fulfilled r /\ ok r = true).
Proof.
  split; [|split].
  - intros r Hnet Hok. split.
    + intros Hmiss. rewrite (cacheFirst_miss _ _ _ _ Hmiss), Hnet, Hok.
      split; reflexivity.
    + rewrite (networkFirst_fulfilled _ _ _ _ _ Hnet), Hok. split; reflexivity.
  - apply cacheFirst_changes_caches.
  - apply networkFirst_changes_caches.
Qed.

Lemma non_ok_response_is_not_stored_witness :
  (fst (cacheFirst site (answers error_500) api_request fresh_worker) =
     Some error_500 /\
   caches (snd (cacheFirst site (answers error_500) api_request fresh_worker)) =
     caches fresh_worker) /\
  (fst (networkFirst site (answers error_500) api_request worker_with_data) =
     Some error_500 /\
   caches (snd (networkFirst site (answers error_500) api_request worker_with_data)) =
     caches worker_with_data) /\
  (exists r, answers data_200 api_request = Fulfilled r /\ ok r = true) /\
  (exists r, answers page_200 page_request = Fulfilled r /\ ok r = true).
Proof.
  split; [|split; [|split]].
  - destruct (non_ok_response_is_not_stored site (answers error_500)
                api_request fresh_worker) as (H & _).
    destruct (H error_500) as (H' & _); [reflexivity | reflexivity |].
    apply H'. reflexivity.
  - destruct (non_ok_response_is_not_stored site (answers error_500)
                api_request worker_with_data) as (H & _).
    destruct (H error_500) as (_ & H'); [reflexivity | reflexivity | exact H'].
  - destruct (non_ok_response_is_not_stored site (answers data_200)
                api_request fresh_worker) as (_ & _ & H).
    apply H. vm_compute. discriminate.
  - destruct (non_ok_response_is_not_stored site (answers page_200)
                page_request fresh_worker) as (_ & H & _).
    apply H. vm_compute. discriminate.
Defined.

(** ** Stale while revalidate *)

Lemma cache_match_request_open (name n : string) (request : Request)
    (cs : CacheStorage) :
  cache_match_request name request (caches_open n cs) =
  cache_match_request name request cs.
Proof.
  unfold cache_match_request. destruct (request_key request); cbn;
    [apply cache_match_open_any | reflexivity].
Qed.

(** With an entry in the dynamic bucket the answer is that entry, on any
    network: the outcome of the live fetch plays no part in it. *)
Lemma staleWhileRevalidate_cached (net : network) (request : Request)
    (st : Worker) (cached : Response) :
  cache_match_request DYNAMIC_CACHE request (caches st) = Some cached ->
  fst (staleWhileRevalidate net request st) = Some cached.
Proof.
  intros H. unfold staleWhileRevalidate, fetch, with_caches.
  cbn [caches]. rewrite cache_match_request_open, H. reflexivity.
Qed.

(** Without an entry, the answer is whatever the live fetch is answered
    with. *)
Lemma staleWhileRevalidate_awaits (net : network) (request : Request)
    (st : Worker) (r : Response) :
  cache_match_request DYNAMIC_CACHE request (caches st) = None ->
  net request = Fulfilled r ->
  fst (staleWhileRevalidate net request st) = Some r.
Proof.
  intros H Hnet. unfold staleWhileRevalidate, fetch, revalidate, with_caches.
  cbn [caches]. rewrite cache_match_request_open, H, Hnet. reflexivity.
Qed.

(** An ok answer to the live fetch that the cache accepts ends up in the
    dynamic bucket, and one fetch is made per request. *)
Lemma staleWhileRevalidate_refreshes (net : network) (request : Request)
    (st : Worker) (r : Response) :
  net request = Fulfilled r ->
  ok r = true ->
  cacheable request r = true ->
  cache_match DYNAMIC_CACHE (cache_key (url request))
    (caches (snd (staleWhileRevalidate net request st))) = Some r /\
  networkRequests (snd (staleWhileRevalidate net request st)) =
    S (networkRequests st).
Proof.
  intros Hnet Hok Hc. unfold staleWhileRevalidate, fetch, revalidate, with_caches.
  cbn [caches]. rewrite Hnet, Hok. cbn [fst snd caches networkRequests count_request].
  split; [|reflexivity].
  apply cache_match_cache_put; [apply caches_has_open | exact Hc].
Qed.

(** Without an entry and with the network down, nothing is returned. *)
Lemma staleWhileRevalidate_rejected (net : network) (request : Request)
    (st : Worker) :
  cache_match_request DYNAMIC_CACHE request (caches st) = None ->
  net request = NetworkError ->
  fst (staleWhileRevalidate net request st) = None.
Proof.
  intros H Hnet. unfold staleWhileRevalidate, fetch, revalidate, with_caches.
  cbn [caches]. rewrite cache_match_request_open, H, Hnet. reflexivity.
Qed.

(** C3.  Stale while revalidate does not apply the offline fallback: with
    no entry for the request and the live fetch rejected, the strategy
    settles with no response at all, where [getOfflineFallback], which the
    other two strategies call at this point, has the 503 response for the
    same request. *)
Theorem staleWhileRevalidate_without_fallback :
  cache_match_request DYNAMIC_CACHE font_stylesheet (caches fresh_worker) = None /\
  offline font_stylesheet = NetworkError /\
  fst (staleWhileRevalidate offline font_stylesheet fresh_worker) = None /\
  fst (getOfflineFallback site font_stylesheet fresh_worker) = Some offline_response /\
  fst (cacheFirst site offline font_stylesheet fresh_worker) = Some offline_response /\
  fst (networkFirst site offline font_stylesheet fresh_worker) = Some offline_response.
Proof. repeat split; vm_compute; reflexivity. Qed.

(** ** Activation *)

Lemma stale_false (name : string) :
  stale name = false <-> name = STATIC_CACHE \/ name = DYNAMIC_CACHE.
Proof.
  unfold stale.
  destruct (String.eqb_spec name STATIC_CACHE) as [E1|E1];
    destruct (String.eqb_spec name DYNAMIC_CACHE) as [E2|E2]; cbn;
    intuition congruence.
Qed.

(** Deleting a list of names one after the other keeps the buckets whose
    name is not in the list, in their order. *)
Lemma fold_caches_delete (names : list string) (cs : CacheStorage) :
  fold_left (fun acc cacheName => caches_delete cacheName acc) names cs =
  List.filter (fun c => negb (existsb (String.eqb (fst c)) names)) cs.
Proof.
  revert cs. induction names as [|n names IH]; intros cs; cbn.
  - induction cs as [|c cs IHc]; cbn; [reflexivity | congruence].
  - rewrite IH. unfold caches_delete. clear IH.
    induction cs as [|c cs IHc]; cbn; [reflexivity|].
    unfold named at 1. destruct (String.eqb (fst c) n); cbn.
    + exact IHc.
    + destruct (existsb (String.eqb (fst c)) names); cbn; congruence.
Qed.

Lemma existsb_eqb_filter (p : string -> bool) (name : string) (names : list string) :
  existsb (String.eqb name) (List.filter p names) =
  p name && existsb (String.eqb name) names.
Proof.
  induction names as [|n names IH]; cbn; [symmetry; apply andb_false_r|].
  destruct (String.eqb_spec name n) as [->|Hne].
  - destruct (p n) eqn:E; cbn.
    + rewrite String.eqb_refl. reflexivity.
    + exact IH.
  - destruct (p n); cbn; [|exact IH].
    destruct (String.eqb_spec name n); [contradiction | exact IH].
Qed.

(** What activation leaves: the buckets of the current version. *)
Lemma activate_caches (cs : CacheStorage) :
  snd (activate cs) = List.filter (fun c => negb (stale (fst c))) cs.
Proof.
  unfold activate. cbn [snd]. rewrite fold_caches_delete.
  apply List.filter_ext_in. intros c Hin.
  rewrite existsb_eqb_filter.
  assert (Hex : existsb (String.eqb (fst c)) (caches_keys cs) = true).
  { apply existsb_exists. exists (fst c). split.
    - unfold caches_keys. apply List.in_map. exact Hin.
    - apply String.eqb_refl. }
  rewrite Hex, andb_true_r. reflexivity.
Qed.

Lemma bucket_filter_current (name : string) (cs : CacheStorage) :
  bucket name (List.filter (fun c => negb (stale (fst c))) cs) =
  if stale name then None else bucket name cs.
Proof.
  unfold bucket. induction cs as [|c cs IH]; cbn.
  - destruct (stale name); reflexivity.
  - destruct (named name c) eqn:E.
    + apply String.eqb_eq in E. rewrite E.
      destruct (stale name) eqn:S; cbn.
      * rewrite IH. reflexivity.
      * unfold named. rewrite E, String.eqb_refl. reflexivity.
    + destruct (stale (fst c)); cbn; [exact IH|].
      rewrite E. exact IH.
Qed.

(** C8.  Activation: the current version's bucket names are exactly the
    names that are not stale; after activation a stale name has no bucket
    and every other bucket is as it was; the names left are the names that
    were there minus the stale ones; and the platform calls are the
    deletions of the stale names followed, last, by the claim of the
    clients. *)
Theorem activate_deletes_stale_buckets (cs : CacheStorage) (name : string) :
  (stale name = false <-> name = STATIC_CACHE \/ name = DYNAMIC_CACHE) /\
  bucket name (snd (activate cs)) = (if stale name then None else bucket name cs) /\
  caches_keys (snd (activate cs)) =
    List.filter (fun n => negb (stale n)) (caches_keys cs) /\
  fst (activate cs) =
    (List.map Deleted (List.filter stale (caches_keys cs)) ++ [ClientsClaimed])%list.
Proof.
  split; [apply stale_false|]. rewrite activate_caches.
  split; [apply bucket_filter_current|]. split; [|reflexivity].
  unfold caches_keys. induction cs as [|c cs IH]; cbn; [reflexivity|].
  destruct (stale (fst c)); cbn; congruence.
Qed.

Lemma activate_example :
  activate [("static-v1", ∅); (STATIC_CACHE, {[ "/" := page_200 ]});
            (CACHE_NAME, ∅); (DYNAMIC_CACHE, ∅)] =
  ([Deleted "static-v1"; Deleted CACHE_NAME; ClientsClaimed],
   [(STATIC_CACHE, {[ "/" := page_200 ]}); (DYNAMIC_CACHE, ∅)]).
Proof. vm_compute. reflexivity. Qed.

(** ** Installation *)

Lemma append_inj (p a b : string) : p ++ a = p ++ b -> a = b.
Proof.
  induction p as [|c p IH]; cbn; [auto|]. intros H. injection H as H.
  apply IH, H.
Qed.

(** A path of the site is filed under the origin followed by the path. *)
Lemma absolute_path_key (origin u : string) :
  String.prefix "/" u = true ->
  cache_key u = u ->
  cache_key (absolute origin u) = absolute origin u /\
  absolute origin u = cache_key origin ++ u.
Proof.
  intros Hp Hk. unfold absolute. rewrite Hp, cache_key_append, Hk. auto.
Qed.

(** The entries of the two manifests are filed under their own URL. *)
Lemma manifest_key (origin u : string) :
  In u (STATIC_ASSETS ++ EXTERNAL_RESOURCES)%list ->
  cache_key (absolute origin u) = absolute origin u.
Proof.
  intros Hin. cbn in Hin.
  repeat (destruct Hin as [<-|Hin];
          [first [ apply absolute_path_key; reflexivity | reflexivity ]|]).
  destruct Hin.
Qed.

(** No two entries of a manifest are filed under the same key. *)
Lemma manifest_keys_NoDup (origin : string) :
  NoDup ((fun u => cache_key (absolute origin u)) <$> STATIC_ASSETS) /\
  NoDup ((fun u => cache_key (absolute origin u)) <$> EXTERNAL_RESOURCES).
Proof.
  split.
  - assert (Heq : (fun u => cache_key (absolute origin u)) <$> STATIC_ASSETS =
                  String.append (cache_key origin) <$> STATIC_ASSETS).
    { apply list_eq_Forall2, Forall2_fmap, Forall_Forall2_diag, Forall_forall.
      intros u Hu. apply list_elem_of_In in Hu.
      rewrite (manifest_key origin u) by (apply in_or_app; left; exact Hu).
      cbn in Hu.
      repeat (destruct Hu as [<-|Hu];
              [apply absolute_path_key; reflexivity|]).
      destruct Hu. }
    rewrite Heq. apply NoDup_fmap_2.
    + intros a b. apply append_inj.
    + apply (bool_decide_unpack _). vm_compute. exact I.
  - apply (bool_decide_unpack _). vm_compute. exact I.
Qed.

Section InstallFacts.

Variable origin : string.
Variable net : network.

Lemma fetch_all_reachable (urls : list string) :
  forallb (reachable origin net) urls = true ->
  exists entries,
    fetch_all origin net urls = Some entries /\
    fst <$> entries = (fun u => cache_key (absolute origin u)) <$> urls /\
    forall u, In u urls ->
      exists r, net (mkRequest (absolute origin u) "GET" "") = Fulfilled r /\
                In (cache_key (absolute origin u), r) entries.
Proof.
  induction urls as [|u urls IH]; cbn [forallb fetch_all].
  - intros _. exists []. split; [reflexivity|].
    split; [reflexivity | intros u []].
  - intros H. apply andb_true_iff in H as [Hu Hrest].
    destruct (IH Hrest) as (entries & Hf & Hkeys & Hall).
    unfold reachable in Hu.
    destruct (net (mkRequest (absolute origin u) "GET" "")) as [|r] eqn:E;
      [discriminate|].
    rewrite Hu, Hf. exists ((cache_key (absolute origin u), r) :: entries).
    split; [reflexivity|]. split.
    + cbn. rewrite Hkeys. reflexivity.
    + intros u' [<-|Hin].
      * exists r. split; [exact E | left; reflexivity].
      * destruct (Hall u' Hin) as (r' & Hr' & Hin'). exists r'.
        split; [exact Hr' | right; exact Hin'].
Qed.

Lemma fetch_all_unreachable (urls : list string) :
  forallb (reachable origin net) urls = false ->
  fetch_all origin net urls = None.
Proof.
  induction urls as [|u urls IH]; cbn [forallb fetch_all]; [discriminate|].
  intros H. unfold reachable in H.
  destruct (net (mkRequest (absolute origin u) "GET" "")) as [|r];
    [reflexivity|].
  destruct (ok r && cacheable (mkRequest (absolute origin u) "GET" "") r);
    [|reflexivity].
  cbn in H. rewrite (IH H). reflexivity.
Qed.

Lemma fold_put_has (name name' : string) (entries : list (string * Response))
    (cs : CacheStorage) :
  caches_has name'
    (fold_left (fun acc e => cache_store name (fst e) (snd e) acc) entries cs) =
  caches_has name' cs.
Proof.
  revert cs. induction entries as [|e entries IH]; intros cs; cbn [fold_left];
    [reflexivity|].
  rewrite IH. apply caches_has_store.
Qed.

Lemma fold_put_other (name name' : string) (entries : list (string * Response))
    (cs : CacheStorage) :
  name <> name' ->
  bucket name'
    (fold_left (fun acc e => cache_store name (fst e) (snd e) acc) entries cs) =
  bucket name' cs.
Proof.
  intros Hne. revert cs.
  induction entries as [|e entries IH]; intros cs; cbn [fold_left];
    [reflexivity|].
  rewrite IH. apply bucket_store_other, Hne.
Qed.

Lemma fold_put_untouched (name key : string) (entries : list (string * Response))
    (cs : CacheStorage) :
  key ∉ fst <$> entries ->
  cache_match name key
    (fold_left (fun acc e => cache_store name (fst e) (snd e) acc) entries cs) =
  cache_match name key cs.
Proof.
  revert cs. induction entries as [|[k r] entries IH]; intros cs Hnotin;
    cbn [fold_left fst snd]; [reflexivity|].
  cbn in Hnotin. apply not_elem_of_cons in Hnotin as [Hne Hnotin].
  rewrite IH by exact Hnotin. apply cache_match_store_other. congruence.
Qed.

(** Once all entries are put, the bucket answers each of them. *)
Lemma fold_put_match (name : string) (entries : list (string * Response))
    (cs : CacheStorage) :
  caches_has name cs = true ->
  NoDup (fst <$> entries) ->
  forall k r, In (k, r) entries ->
    cache_match name k
      (fold_left (fun acc e => cache_store name (fst e) (snd e) acc) entries cs) =
    Some r.
Proof.
  revert cs. induction entries as [|[k' r'] entries IH]; intros cs Hhas Hnd k r Hin;
    [destruct Hin|].
  cbn in Hnd. apply NoDup_cons in Hnd as [Hnotin Hnd].
  cbn [fold_left fst snd]. destruct Hin as [Heq|Hin].
  - injection Heq as -> ->. rewrite fold_put_untouched by exact Hnotin.
    apply cache_match_store, Hhas.
  - apply IH; [rewrite caches_has_store; exact Hhas | exact Hnd | exact Hin].
Qed.

Lemma cache_addAll_other (name name' : string) (urls : list string)
    (cs : CacheStorage) :
  name <> name' ->
  bucket name' (snd (cache_addAll origin net name urls cs)) = bucket name' cs.
Proof.
  intros Hne. unfold cache_addAll.
  destruct (fetch_all origin net urls); cbn [snd]; [|reflexivity].
  destruct (bool_decide _); cbn [snd]; [|reflexivity].
  apply fold_put_other, Hne.
Qed.

(** An installation never touches a bucket of another version. *)
Lemma install_other_buckets (cs : CacheStorage) (name : string) :
  name <> STATIC_CACHE -> name <> DYNAMIC_CACHE ->
  bucket name (snd (install origin net cs)) = bucket name cs.
Proof.
  intros Hs Hd. unfold install.
  destruct (cache_addAll origin net STATIC_CACHE STATIC_ASSETS
              (caches_open STATIC_CACHE cs)) as [a cs1] eqn:E1.
  destruct (cache_addAll origin net DYNAMIC_CACHE EXTERNAL_RESOURCES
              (caches_open DYNAMIC_CACHE cs1)) as [b cs2] eqn:E2.
  cbn [snd].
  assert (H2 := cache_addAll_other DYNAMIC_CACHE name EXTERNAL_RESOURCES
                  (caches_open DYNAMIC_CACHE cs1) (not_eq_sym Hd)).
  assert (H1 := cache_addAll_other STATIC_CACHE name STATIC_ASSETS
                  (caches_open STATIC_CACHE cs) (not_eq_sym Hs)).
  rewrite E2 in H2. rewrite E1 in H1. cbn [snd] in H1, H2.
  rewrite H2, bucket_open_other by (apply not_eq_sym; assumption).
  rewrite H1, bucket_open_other by (apply not_eq_sym; assumption).
  reflexivity.
Qed.

End InstallFacts.

Lemma cache_addAll_stores (origin : string) (net : network) (name : string)
    (urls : list string) (cs : CacheStorage) :
  caches_has name cs = true ->
  forallb (reachable origin net) urls = true ->
  NoDup ((fun u => cache_key (absolute origin u)) <$> urls) ->
  fst (cache_addAll origin net name urls cs) = true /\
  forall u, In u urls ->
    exists r,
      net (mkRequest (absolute origin u) "GET" "") = Fulfilled r /\
      cache_match name (cache_key (absolute origin u))
        (snd (cache_addAll origin net name urls cs)) = Some r.
Proof.
  intros Hhas Hall Hnd. unfold cache_addAll.
  destruct (fetch_all_reachable origin net urls Hall)
    as (entries & -> & Hkeys & Hin).
  rewrite <- Hkeys in Hnd. rewrite (bool_decide_eq_true_2 _ Hnd).
  cbn [fst snd]. split; [reflexivity|].
  intros u Hu. destruct (Hin u Hu) as (r & Hr & Hentry).
  exists r. split; [exact Hr|].
  apply fold_put_match; assumption.
Qed.

Lemma cache_addAll_rejects (origin : string) (net : network) (name : string)
    (urls : list string) (cs : CacheStorage) :
  forallb (reachable origin net) urls = false ->
  cache_addAll origin net name urls cs = (false, cs).
Proof.
  intros H. unfold cache_addAll.
  rewrite (fetch_all_unreachable origin net urls H). reflexivity.
Qed.

(** The storage an installation leaves, in terms of the two [addAll]s. *)
Lemma install_caches (origin : string) (net : network) (cs : CacheStorage) :
  snd (install origin net cs) =
  snd (cache_addAll origin net DYNAMIC_CACHE EXTERNAL_RESOURCES
         (caches_open DYNAMIC_CACHE
            (snd (cache_addAll origin net STATIC_CACHE STATIC_ASSETS
                    (caches_open STATIC_CACHE cs))))).
Proof.
  unfold install.
  destruct (cache_addAll origin net STATIC_CACHE STATIC_ASSETS
              (caches_open STATIC_CACHE cs)) as [a cs1].
  cbn [snd].
  destruct (cache_addAll origin net DYNAMIC_CACHE EXTERNAL_RESOURCES
              (caches_open DYNAMIC_CACHE cs1)) as [b cs2].
  reflexivity.
Qed.

Lemma install_static_stored (origin : string) (net : network)
    (cs : CacheStorage) (u : string) :
  forallb (reachable origin net) STATIC_ASSETS = true ->
  In u STATIC_ASSETS ->
  exists r,
    net (mkRequest (absolute origin u) "GET" "") = Fulfilled r /\
    cache_match STATIC_CACHE (absolute origin u) (snd (install origin net cs)) =
      Some r.
Proof.
  intros Hs Hu. rewrite install_caches.
  destruct (cache_addAll_stores origin net STATIC_CACHE STATIC_ASSETS
              (caches_open STATIC_CACHE cs) (caches_has_open _ _) Hs
              (proj1 (manifest_keys_NoDup origin)))
    as [_ Hstored].
  destruct (Hstored u Hu) as (r & Hr & Hm). exists r. split; [exact Hr|].
  rewrite manifest_key in Hm by (apply in_or_app; left; exact Hu).
  unfold cache_match in *.
  rewrite cache_addAll_other by discriminate.
  rewrite bucket_open_other by discriminate. exact Hm.
Qed.

Lemma install_dynamic_stored (origin : string) (net : network)
    (cs : CacheStorage) (u : string) :
  forallb (reachable origin net) EXTERNAL_RESOURCES = true ->
  In u EXTERNAL_RESOURCES ->
  exists r,
    net (mkRequest (absolute origin u) "GET" "") = Fulfilled r /\
    cache_match DYNAMIC_CACHE (absolute origin u) (snd (install origin net cs)) =
      Some r.
Proof.
  intros Hd Hu. rewrite install_caches.
  destruct (cache_addAll_stores origin net DYNAMIC_CACHE EXTERNAL_RESOURCES
              (caches_open DYNAMIC_CACHE
                 (snd (cache_addAll origin net STATIC_CACHE STATIC_ASSETS
                         (caches_open STATIC_CACHE cs))))
              (caches_has_open _ _) Hd (proj2 (manifest_keys_NoDup origin)))
    as [_ Hstored].
  destruct (Hstored u Hu) as (r & Hr & Hm). exists r. split; [exact Hr|].
  rewrite manifest_key in Hm by (apply in_or_app; right; exact Hu).
  exact Hm.
Qed.

Lemma install_fulfils (origin : string) (net : network) (cs : CacheStorage) :
  forallb (reachable origin net) STATIC_ASSETS = true ->
  forallb (reachable origin net) EXTERNAL_RESOURCES = true ->
  fst (install origin net cs) = InstalledSkipWaiting.
Proof.
  intros Hs Hd. unfold install.
  destruct (cache_addAll_stores origin net STATIC_CACHE STATIC_ASSETS
              (caches_open STATIC_CACHE cs) (caches_has_open _ _) Hs
              (proj1 (manifest_keys_NoDup origin))) as [Ha _].
  destruct (cache_addAll origin net STATIC_CACHE STATIC_ASSETS
              (caches_open STATIC_CACHE cs)) as [a cs1].
  cbn [fst] in Ha. subst a.
  destruct (cache_addAll_stores origin net DYNAMIC_CACHE EXTERNAL_RESOURCES
              (caches_open DYNAMIC_CACHE cs1) (caches_has_open _ _) Hd
              (proj2 (manifest_keys_NoDup origin))) as [Hb _].
  destruct (cache_addAll origin net DYNAMIC_CACHE EXTERNAL_RESOURCES
              (caches_open DYNAMIC_CACHE cs1)) as [b cs2].
  cbn [fst] in Hb. subst b. reflexivity.
Qed.

Lemma install_rejects (origin : string) (net : network) (cs : CacheStorage) :
  forallb (reachable origin net) STATIC_ASSETS = false \/
  forallb (reachable origin net) EXTERNAL_RESOURCES = false ->
  fst (install origin net cs) = InstallRejected.
Proof.
  intros H. unfold install.
  destruct (cache_addAll origin net STATIC_CACHE STATIC_ASSETS
              (caches_open STATIC_CACHE cs)) as [a cs1] eqn:E1.
  destruct (cache_addAll origin net DYNAMIC_CACHE EXTERNAL_RESOURCES
              (caches_open DYNAMIC_CACHE cs1)) as [b cs2] eqn:E2.
  cbn [fst]. destruct H as [H|H].
  - rewrite (cache_addAll_rejects origin net _ _ _ H) in E1.
    injection E1 as <- _. reflexivity.
  - rewrite (cache_addAll_rejects origin net _ _ _ H) in E2.
    injection E2 as <- _. rewrite andb_false_r. reflexivity.
Qed.

(** C9, as stated, fails: a failed installation is not atomic and the
    worker that is still active is not unaffected.  The font host is down,
    so the install promise rejects; yet the static bucket of the new
    version has been created and filled, and a stylesheet that
    [caches.match] did not find before the failed installation is found
    after it. *)
Lemma install_rejected_leaves_static_filled :
  fst (install site fonts_down old_storage) = InstallRejected /\
  originalCacheMatch (mkRequest (absolute site "/styles.css") "GET" "style")
    old_storage = None /\
  originalCacheMatch (mkRequest (absolute site "/styles.css") "GET" "style")
    (snd (install site fonts_down old_storage)) = Some page_200.
Proof. repeat split; vm_compute; reflexivity. Qed.

(** C9, amended.  Installation.  When every entry of the two manifests is
    reachable, the install promise fulfils after [skipWaiting] has been
    called, and afterwards the static bucket answers every entry of
    [STATIC_ASSETS] and the dynamic bucket every entry of
    [EXTERNAL_RESOURCES] with what the network answered.  When some entry
    is unreachable, the install promise rejects and [skipWaiting] is not
    called; nothing is rolled back, and what is guaranteed is that every
    bucket that is not one of this version's two is as it was. *)
Theorem install_populates_or_aborts (origin : string) (net : network)
    (cs : CacheStorage) :
  (forallb (reachable origin net) (STATIC_ASSETS ++ EXTERNAL_RESOURCES)%list = true ->
     fst (install origin net cs) = InstalledSkipWaiting /\
     (forall u, In u STATIC_ASSETS ->
        exists r,
          net (mkRequest (absolute origin u) "GET" "") = Fulfilled r /\
          cache_match STATIC_CACHE (absolute origin u)
            (snd (install origin net cs)) = Some r) /\
     (forall u, In u EXTERNAL_RESOURCES ->
        exists r,
          net (mkRequest (absolute origin u) "GET" "") = Fulfilled r /\
          cache_match DYNAMIC_CACHE (absolute origin u)
            (snd (install origin net cs)) = Some r)) /\
  (forallb (reachable origin net) (STATIC_ASSETS ++ EXTERNAL_RESOURCES)%list = false ->
     fst (install origin net cs) = InstallRejected /\
     forall name, name <> STATIC_CACHE -> name <> DYNAMIC_CACHE ->
       bucket name (snd (install origin net cs)) = bucket name cs).
Proof.
  split.
  - intros Hall. rewrite forallb_app in Hall.
    apply andb_true_iff in Hall as [Hs Hd].
    split; [apply install_fulfils; assumption|]. split.
    + intros u Hu. apply install_static_stored; assumption.
    + intros u Hu. apply install_dynamic_stored; assumption.
  - intros Hsome. split.
    + apply install_rejects. rewrite forallb_app in Hsome.
      apply andb_false_iff in Hsome. exact Hsome.
    + intros name Hs Hd. apply install_other_buckets; assumption.
Qed.

Lemma install_example :
  install site fonts_down old_storage =
  (InstallRejected,
   (old_storage ++
    [(STATIC_CACHE,
      list_to_map (List.map (fun u => (absolute site u, page_200)) STATIC_ASSETS));
     (DYNAMIC_CACHE, ∅)])%list).
Proof. vm_compute. reflexivity. Qed.

Lemma install_populates_or_aborts_witness :
  fst (install site (answers page_200) old_storage) = InstalledSkipWaiting /\
  fst (install site fonts_down old_storage) = InstallRejected /\
  bucket "static-v1" (snd (install site fonts_down old_storage)) =
    bucket "static-v1" old_storage.
Proof.
  split; [|split].
  - destruct (install_populates_or_aborts site (answers page_200) old_storage)
      as ((H & _) & _); [reflexivity | exact H].
  - destruct (install_populates_or_aborts site fonts_down old_storage)
      as (_ & H).
    destruct H as (H & _); [reflexivity | exact H].
  - destruct (install_populates_or_aborts site fonts_down old_storage)
      as (_ & H).
    destruct H as (_ & H); [reflexivity | apply H; discriminate].
Defined.

(** ** Background sync *)

Lemma fold_replay_log (net : replay_network)
    (requests : list (string * PendingRequest))
    (acc : list string * RequestStore) :
  fst (fold_left (replay net) requests acc) =
  (fst acc ++ List.map fst requests)%list.
Proof.
  revert acc. induction requests as [|e requests IH]; intros acc;
    cbn [fold_left List.map].
  - symmetry. apply app_nil_r.
  - rewrite IH. unfold replay.
    destruct (net e); cbn [fst]; rewrite <- app_assoc; reflexivity.
Qed.

(** After the loop, a record is in the store when it was there before and
    no turn of the loop removed it. *)
Lemma fold_replay_lookup (net : replay_network)
    (requests : list (string * PendingRequest))
    (acc : list string * RequestStore) (id : string) :
  snd (fold_left (replay net) requests acc) !! id =
  if existsb (fun e => String.eqb (fst e) id && replay_succeeds net e) requests
  then None
  else snd acc !! id.
Proof.
  revert acc. induction requests as [|e requests IH]; intros acc;
    cbn [fold_left existsb]; [reflexivity|].
  rewrite IH. unfold replay, replay_succeeds, removeStoredRequest.
  destruct (net e); cbn [snd].
  - rewrite andb_false_r. reflexivity.
  - rewrite andb_true_r.
    destruct (String.eqb_spec (fst e) id) as [->|Hne]; cbn [orb].
    + rewrite lookup_delete_eq.
      destruct (existsb _ requests); reflexivity.
    + rewrite lookup_delete_ne by exact Hne. reflexivity.
Qed.

(** The records listed are the records stored. *)
Lemma stored_elem (store : RequestStore) (id : string) (request : PendingRequest) :
  (id, request) ∈ getStoredRequests store <-> store !! id = Some request.
Proof.
  unfold getStoredRequests. rewrite merge_sort_Permutation.
  apply elem_of_map_to_list.
Qed.

Lemma stored_NoDup (store : RequestStore) :
  NoDup (List.map fst (getStoredRequests store)).
Proof.
  change (NoDup ((getStoredRequests store).*1)).
  unfold getStoredRequests. rewrite merge_sort_Permutation.
  apply NoDup_fst_map_to_list.
Qed.

Lemma stored_length (store : RequestStore) :
  List.length (getStoredRequests store) = size store.
Proof.
  unfold getStoredRequests. rewrite merge_sort_Permutation.
  apply length_map_to_list.
Qed.

Lemma existsb_stored (net : replay_network) (store : RequestStore) (id : string) :
  existsb (fun e => String.eqb (fst e) id && replay_succeeds net e)
          (getStoredRequests store) =
  match store !! id with
  | Some request => replay_succeeds net (id, request)
  | None => false
  end.
Proof.
  destruct (store !! id) as [request|] eqn:L.
  - destruct (replay_succeeds net (id, request)) eqn:R.
    + apply existsb_exists. exists (id, request). split.
      * apply list_elem_of_In, stored_elem, L.
      * cbn [fst]. rewrite String.eqb_refl, R. reflexivity.
    + apply not_true_is_false. intros H.
      apply existsb_exists in H as ([i q] & Hin & Hb).
      apply list_elem_of_In, stored_elem in Hin.
      apply andb_true_iff in Hb as [Hi Hq]. cbn [fst] in Hi.
      apply String.eqb_eq in Hi. subst i.
      assert (q = request) by congruence. subst q. congruence.
  - apply not_true_is_false. intros H.
    apply existsb_exists in H as ([i q] & Hin & Hb).
    apply list_elem_of_In, stored_elem in Hin.
    apply andb_true_iff in Hb as [Hi _]. cbn [fst] in Hi.
    apply String.eqb_eq in Hi. subst i. congruence.
Qed.

(** C5.  Background sync.  Every queued record is replayed, once, in the
    order the store lists them, whatever happens to the others; and after
    the sync the store holds, under an id, the record it held before when
    the replay of that record failed, and nothing when the replay
    succeeded or there was no such record. *)
Theorem syncContactForm_removes_replayed (net : replay_network)
    (store : RequestStore) (id : string) :
  fst (syncContactForm net store) = List.map fst (getStoredRequests store) /\
  NoDup (fst (syncContactForm net store)) /\
  snd (syncContactForm net store) !! id =
    match store !! id with
    | Some request =>
        if replay_succeeds net (id, request) then None else Some request
    | None => None
    end.
Proof.
  unfold syncContactForm. split; [|split].
  - rewrite fold_replay_log. reflexivity.
  - rewrite fold_replay_log. cbn [fst app]. apply stored_NoDup.
  - rewrite fold_replay_lookup, existsb_stored. cbn [snd].
    destruct (store !! id) as [request|]; [|reflexivity].
    destruct (replay_succeeds net (id, request)); reflexivity.
Qed.

Lemma syncContactForm_example :
  syncContactForm contact_down queued =
  (["abc"; "def"], {[ "abc" := contact_form ]}).
Proof. vm_compute. reflexivity. Qed.

(** * Further properties of the worker *)

(** ** What a strategy may write *)

Lemma cache_match_store_any (name n key k : string) (r : Response)
    (cs : CacheStorage) :
  key <> k ->
  cache_match name key (cache_store n k r cs) = cache_match name key cs.
Proof.
  intros Hne. destruct (String.eqb_spec n name) as [->|Hn].
  - apply cache_match_store_other. congruence.
  - unfold cache_match. rewrite bucket_store_other by exact Hn. reflexivity.
Qed.

Lemma cache_match_cache_put_any (name n key : string) (request : Request)
    (r : Response) (cs : CacheStorage) :
  key <> cache_key (url request) ->
  cache_match name key (cache_put n request r cs) = cache_match name key cs.
Proof.
  intros Hne. unfold cache_put. destruct (cacheable request r);
    [apply cache_match_store_any, Hne | reflexivity].
Qed.

Lemma bucket_caches_has (name : string) (cs : CacheStorage) :
  is_Some (bucket name cs) -> caches_has name cs = true.
Proof.
  unfold bucket, caches_has. intros [c Hc].
  induction cs as [|c' cs IH]; cbn in *; [discriminate|].
  destruct (named name c'); [reflexivity | exact (IH Hc)].
Qed.

Lemma cache_match_caches_has (name key : string) (cs : CacheStorage) :
  is_Some (cache_match name key cs) -> caches_has name cs = true.
Proof.
  unfold cache_match. intros [r Hr]. apply bucket_caches_has.
  destruct (bucket name cs); [eauto | discriminate].
Qed.

(** Filing a response never makes an entry disappear. *)
Lemma cache_store_keeps (name n key k : string) (r : Response)
    (cs : CacheStorage) :
  is_Some (cache_match name key cs) ->
  is_Some (cache_match name key (cache_store n k r cs)).
Proof.
  intros H. destruct (String.eqb_spec key k) as [->|Hk].
  - destruct (String.eqb_spec n name) as [->|Hn].
    + rewrite cache_match_store; [eauto|]. apply (cache_match_caches_has _ k), H.
    + unfold cache_match in *. rewrite bucket_store_other by exact Hn. exact H.
  - rewrite cache_match_store_any by exact Hk. exact H.
Qed.

Lemma cache_put_keeps (name n key : string) (request : Request) (r : Response)
    (cs : CacheStorage) :
  is_Some (cache_match name key cs) ->
  is_Some (cache_match name key (cache_put n request r cs)).
Proof.
  intros H. unfold cache_put. destruct (cacheable request r);
    [apply cache_store_keeps, H | exact H].
Qed.

(** The storage each strategy leaves, as one transformation of the storage
    it found: nothing, or a put of the request into a bucket that is
    opened first, or the opening alone. *)
Lemma run_strategy_caches (origin : string) (s : strategy) (net : network)
    (request : Request) (st : Worker) :
  caches (snd (run_strategy origin s net request st)) = caches st \/
  exists n r,
    caches (snd (run_strategy origin s net request st)) =
    cache_put n request r (caches_open n (caches st)) \/
    caches (snd (run_strategy origin s net request st)) =
    caches_open n (caches st).
Proof.
  destruct s; cbn [run_strategy].
  - unfold cacheFirst, caches_match, fetch.
    destruct (originalCacheMatch request (caches st)); [left; reflexivity|].
    destruct (net request) as [|r].
    + left. destruct (getOfflineFallback_state origin request
                        (count_request (count_miss st))) as [-> _]. reflexivity.
    + destruct (ok r); [|left; reflexivity].
      right. exists STATIC_CACHE, r. left. reflexivity.
  - unfold networkFirst, caches_match, fetch.
    destruct (net request) as [|r].
    + left. cbn [caches count_request].
      destruct (originalCacheMatch request (caches st)); [reflexivity|].
      destruct (getOfflineFallback_state origin request
                  (count_miss (count_request st))) as [-> _]. reflexivity.
    + destruct (ok r); [|left; reflexivity].
      right. exists DYNAMIC_CACHE, r. left. reflexivity.
  - unfold staleWhileRevalidate, fetch, revalidate, with_caches. cbn [caches].
    right. destruct (net request) as [|r].
    + exists DYNAMIC_CACHE, page_200. right. reflexivity.
    + destruct (ok r).
      * exists DYNAMIC_CACHE, r. left. reflexivity.
      * exists DYNAMIC_CACHE, r. right. reflexivity.
Qed.

(** X1.  Whatever the strategy, the network and the outcome, handling a
    request changes no entry filed under another URL, in any bucket (the
    URL a request is filed under is its own without the fragment). *)
Theorem strategies_write_only_the_request (origin : string) (s : strategy)
    (net : network) (request : Request) (st : Worker) (name key : string) :
  key <> cache_key (url request) ->
  cache_match name key (caches (snd (run_strategy origin s net request st))) =
  cache_match name key (caches st).
Proof.
  intros Hne.
  destruct (run_strategy_caches origin s net request st)
    as [-> | (n & r & [-> | ->])]; [reflexivity | |].
  - rewrite cache_match_cache_put_any by exact Hne. apply cache_match_open_any.
  - apply cache_match_open_any.
Qed.

Lemma strategies_write_only_the_request_witness :
  cache_match DYNAMIC_CACHE (url font_stylesheet)
    (caches (snd (run_strategy site NETWORK_FIRST (answers data_200)
                    api_request worker_with_font))) =
  Some font_200.
Proof.
  rewrite (strategies_write_only_the_request site NETWORK_FIRST
             (answers data_200) api_request worker_with_font
             DYNAMIC_CACHE (url font_stylesheet)).
  - reflexivity.
  - vm_compute. discriminate.
Defined.

(** X2.  No strategy ever evicts: an entry that was in a bucket before a
    request was handled is still answered by that bucket afterwards (with
    the same or a fresher response). *)
Theorem strategies_never_evict (origin : string) (s : strategy)
    (net : network) (request : Request) (st : Worker) (name key : string) :
  is_Some (cache_match name key (caches st)) ->
  is_Some (cache_match name key
             (caches (snd (run_strategy origin s net request st)))).
Proof.
  intros H.
  destruct (run_strategy_caches origin s net request st)
    as [-> | (n & r & [-> | ->])]; [exact H | |].
  - apply cache_put_keeps. rewrite cache_match_open_any. exact H.
  - rewrite cache_match_open_any. exact H.
Qed.

Lemma strategies_never_evict_witness :
  is_Some (cache_match DYNAMIC_CACHE (url font_stylesheet)
             (caches (snd (run_strategy site STALE_WHILE_REVALIDATE
                             (answers font_new) font_stylesheet
                             worker_with_font)))).
Proof.
  apply strategies_never_evict. vm_compute. eauto.
Defined.

(** ** Requests as the browser sends them *)

Lemma bucket_put_open_other (name n : string) (request : Request)
    (r : Response) (cs : CacheStorage) :
  n <> name ->
  bucket name (cache_put n request r (caches_open n cs)) = bucket name cs.
Proof.
  intros Hn. rewrite bucket_cache_put_other by exact Hn.
  apply bucket_open_other, Hn.
Qed.

(** X3.  A request URL as the browser reports it is absolute and so
    contains a slash.  Every GET request with such a URL is answered by
    the cache-first strategy, and handling it leaves every bucket other
    than the static one exactly as it was: the fetch listener never writes
    to the dynamic bucket for these requests. *)
Theorem handle_fetch_writes_static_only (origin : string) (net : network)
    (request : Request) (st : Worker) (name : string) :
  method request = "GET" ->
  includes "/" (url request) = true ->
  name <> STATIC_CACHE ->
  handle_fetch origin net request st = Some (cacheFirst origin net request st) /\
  bucket name (caches (snd (cacheFirst origin net request st))) =
  bucket name (caches st).
Proof.
  intros Hm Hs Hn. split.
  - unfold handle_fetch. rewrite (fetch_listener_slash _ Hm Hs). reflexivity.
  - unfold cacheFirst, caches_match, fetch.
    destruct (originalCacheMatch request (caches st)); [reflexivity|].
    destruct (net request) as [|r].
    + destruct (getOfflineFallback_state origin request
                  (count_request (count_miss st))) as [-> _]. reflexivity.
    + destruct (ok r); [|reflexivity]. cbn [snd caches with_caches count_request count_miss].
      apply bucket_put_open_other. congruence.
Qed.

Lemma handle_fetch_writes_static_only_witness :
  handle_fetch site (answers font_new) font_stylesheet worker_with_font =
    Some (cacheFirst site (answers font_new) font_stylesheet worker_with_font) /\
  bucket DYNAMIC_CACHE
    (caches (snd (cacheFirst site (answers font_new) font_stylesheet
                    worker_with_font))) =
  bucket DYNAMIC_CACHE (caches worker_with_font).
Proof.
  apply handle_fetch_writes_static_only;
    [reflexivity | reflexivity | discriminate].
Defined.

(** ** Network first keeps a last known good answer *)

Lemma first_entry_store_is_Some (name key : string) (r : Response)
    (cs : CacheStorage) :
  caches_has name cs = true ->
  is_Some (first_entry key (cache_store name key r cs)).
Proof.
  unfold caches_has, cache_store.
  induction cs as [|c cs IH]; cbn; [discriminate|].
  destruct (named name c) eqn:E; cbn.
  - intros _. rewrite lookup_insert_eq. eauto.
  - intros H. destruct (snd c !! key); [eauto | exact (IH H)].
Qed.

Lemma originalCacheMatch_cache_put_is_Some (name : string) (request : Request)
    (r : Response) (cs : CacheStorage) :
  caches_has name cs = true ->
  cacheable request r = true ->
  is_Some (originalCacheMatch request (cache_put name request r cs)).
Proof.
  intros Hhas Hc. unfold originalCacheMatch, cache_put.
  rewrite Hc, (cacheable_request_key request r Hc). cbn.
  apply first_entry_store_is_Some, Hhas.
Qed.

(** X4.  Once network first has fetched an ok answer for a request and
    [cache.put] has accepted it (a GET of an http(s) URL, not a 206) and
    settled, the same request made while the network is down is answered
    from the cache and never by the offline fallback; when no bucket held
    the request before, the answer is the very response that was fetched,
    and no fetch beyond the failed one is attempted. *)
Theorem networkFirst_last_known_good (origin : string) (net down : network)
    (request : Request) (st : Worker) (r : Response) :
  net request = Fulfilled r ->
  ok r = true ->
  cacheable request r = true ->
  down request = NetworkError ->
  let st' := snd (networkFirst origin net request st) in
  (exists cached,
      networkFirst origin down request st' =
        (Some cached, count_hit (count_request st')) /\
      (originalCacheMatch request (caches st) = None -> cached = r)).
Proof.
  intros Hnet Hok Hc Hdown st'. subst st'.
  rewrite (networkFirst_fulfilled _ _ _ _ _ Hnet), Hok. cbn [snd].
  rewrite (networkFirst_rejected _ _ _ _ Hdown). cbn [caches with_caches count_request].
  destruct (originalCacheMatch_cache_put_is_Some DYNAMIC_CACHE request r
              (caches_open DYNAMIC_CACHE (caches st)) (caches_has_open _ _) Hc)
    as [cached Hcached].
  rewrite Hcached. exists cached. split; [reflexivity|].
  intros Hmiss.
  rewrite originalCacheMatch_cache_put in Hcached;
    [congruence | apply caches_has_open | exact Hc |].
  rewrite originalCacheMatch_open. exact Hmiss.
Qed.

Lemma networkFirst_last_known_good_witness :
  exists cached,
    networkFirst site offline api_request
      (snd (networkFirst site (answers data_200) api_request fresh_worker)) =
    (Some cached,
     count_hit (count_request
       (snd (networkFirst site (answers data_200) api_request fresh_worker)))) /\
    (originalCacheMatch api_request (caches fresh_worker) = None ->
     cached = data_200).
Proof.
  apply (networkFirst_last_known_good site (answers data_200) offline
           api_request fresh_worker data_200); reflexivity.
Defined.

(** ** Stale while revalidate, request after request *)

Lemma staleWhileRevalidate_answer (net : network) (request : Request)
    (st : Worker) :
  fst (staleWhileRevalidate net request st) =
  match cache_match_request DYNAMIC_CACHE request (caches st) with
  | Some cached => Some cached
  | None =>
      match net request with
      | Fulfilled r => Some r
      | NetworkError => None
      end
  end.
Proof.
  unfold staleWhileRevalidate, fetch, revalidate, with_caches. cbn [caches].
  rewrite cache_match_request_open.
  destruct (cache_match_request DYNAMIC_CACHE request (caches st));
    [reflexivity|].
  destruct (net request); reflexivity.
Qed.

Lemma staleWhileRevalidate_entry (net : network) (request : Request)
    (st : Worker) :
  cache_match_request DYNAMIC_CACHE request
    (caches (snd (staleWhileRevalidate net request st))) =
  match fresh_answer net request with
  | Some r => Some r
  | None => cache_match_request DYNAMIC_CACHE request (caches st)
  end.
Proof.
  unfold staleWhileRevalidate, fetch, revalidate, with_caches, fresh_answer.
  cbn [caches].
  destruct (net request) as [|r]; cbn [snd caches count_request].
  - apply cache_match_request_open.
  - destruct (ok r); cbn [caches count_request andb].
    + destruct (cacheable request r) eqn:Hc.
      * unfold cache_match_request.
        rewrite (cacheable_request_key request r Hc). cbn.
        apply cache_match_cache_put; [apply caches_has_open | exact Hc].
      * unfold cache_put. rewrite Hc. apply cache_match_request_open.
    + apply cache_match_request_open.
Qed.

(** X5.  Two requests for the same resource in a row, the second made once
    the background fetch and put of the first have settled: the second is
    answered with the response the first one fetched in the background, if
    that was an ok response that [cache.put] accepted (not a 206),
    whatever the network says by then; otherwise the entry that was cached
    before is served again, unchanged; and only when there was none either
    does the second answer depend on the second fetch. *)
Theorem staleWhileRevalidate_serves_previous_fetch (net1 net2 : network)
    (request : Request) (st : Worker) :
  fst (staleWhileRevalidate net2 request
         (snd (staleWhileRevalidate net1 request st))) =
  match fresh_answer net1 request with
  | Some r1 => Some r1
  | None =>
      match cache_match_request DYNAMIC_CACHE request (caches st) with
      | Some cached => Some cached
      | None =>
          match net2 request with
          | Fulfilled r2 => Some r2
          | NetworkError => None
          end
      end
  end.
Proof.
  rewrite staleWhileRevalidate_answer, staleWhileRevalidate_entry.
  destruct (fresh_answer net1 request); [reflexivity|].
  destruct (cache_match_request DYNAMIC_CACHE request (caches st));
    reflexivity.
Qed.

Lemma staleWhileRevalidate_example :
  fst (staleWhileRevalidate (answers font_new) font_stylesheet worker_with_font) =
    Some font_200 /\
  fst (staleWhileRevalidate offline font_stylesheet
         (snd (staleWhileRevalidate (answers font_new) font_stylesheet
                 worker_with_font))) = Some font_new /\
  fst (staleWhileRevalidate offline font_stylesheet
         (snd (staleWhileRevalidate (answers partial_206) font_stylesheet
                 worker_with_font))) = Some font_200.
Proof. repeat split; vm_compute; reflexivity. Qed.

(** ** Periodic cache update *)

Lemma refresh_caches_has (net : network) (st : Worker) (key name : string) :
  caches_has name (caches (refresh net st key)) = caches_has name (caches st).
Proof.
  unfold refresh, fetch. destruct (net _) as [|r]; [reflexivity|].
  destruct (ok r); [|reflexivity]. cbn [caches with_caches count_request].
  apply caches_has_cache_put.
Qed.

Lemma refresh_entry (net : network) (st : Worker) (k key : string) :
  caches_has DYNAMIC_CACHE (caches st) = true ->
  cache_key k = k ->
  cache_match DYNAMIC_CACHE key (caches (refresh net st k)) =
  match fresh_answer net (mkRequest k "GET" "") with
  | Some r => if String.eqb k key then Some r
              else cache_match DYNAMIC_CACHE key (caches st)
  | None => cache_match DYNAMIC_CACHE key (caches st)
  end.
Proof.
  intros Hhas Hk. unfold refresh, fetch, fresh_answer, cache_put.
  destruct (net _) as [|r]; [reflexivity|].
  destruct (ok r); [|reflexivity]. cbn [caches with_caches count_request andb].
  destruct (cacheable (mkRequest k "GET" "") r); [|reflexivity].
  cbn [url]. rewrite Hk.
  destruct (String.eqb_spec k key) as [->|Hne].
  - apply cache_match_store, Hhas.
  - apply cache_match_store_other, Hne.
Qed.

Lemma fold_refresh_entry (net : network) (keys : list string) (st : Worker)
    (key : string) :
  caches_has DYNAMIC_CACHE (caches st) = true ->
  Forall (fun k => cache_key k = k) keys ->
  cache_match DYNAMIC_CACHE key (caches (fold_left (refresh net) keys st)) =
  match fresh_answer net (mkRequest key "GET" "") with
  | Some r => if existsb (String.eqb key) keys then Some r
              else cache_match DYNAMIC_CACHE key (caches st)
  | None => cache_match DYNAMIC_CACHE key (caches st)
  end.
Proof.
  revert st. induction keys as [|k keys IH]; intros st Hhas Hkeys;
    cbn [fold_left existsb].
  - destruct (fresh_answer _ _); reflexivity.
  - apply Forall_cons in Hkeys as [Hk Hkeys].
    rewrite IH by (try rewrite refresh_caches_has; assumption).
    rewrite (refresh_entry net st k key Hhas Hk).
    rewrite (String.eqb_sym key k).
    destruct (String.eqb_spec k key) as [->|Hne]; cbn [orb].
    + destruct (fresh_answer net (mkRequest key "GET" "")); [|reflexivity].
      destruct (existsb _ keys); reflexivity.
    + destruct (fresh_answer net (mkRequest key "GET" ""));
        destruct (fresh_answer net (mkRequest k "GET" "")); reflexivity.
Qed.

Lemma cache_keys_stored (name key : string) (cs : CacheStorage) :
  existsb (String.eqb key) (cache_keys name cs) =
  match cache_match name key cs with Some _ => true | None => false end.
Proof.
  unfold cache_keys, cache_match. destruct (bucket name cs) as [c|]; cbn;
    [|reflexivity].
  destruct (c !! key) as [r|] eqn:L.
  - apply existsb_exists. exists key. split; [|apply String.eqb_refl].
    apply list_elem_of_In, list_elem_of_fmap. exists (key, r).
    split; [reflexivity | apply elem_of_map_to_list, L].
  - apply not_true_is_false. intros H.
    apply existsb_exists in H as (k & Hin & Hk).
    apply String.eqb_eq in Hk. subst k.
    apply list_elem_of_In, list_elem_of_fmap in Hin as ([k r] & Hk & Hin).
    cbn in Hk. subst k. apply elem_of_map_to_list in Hin. congruence.
Qed.

Lemma cache_keys_open (name : string) (cs : CacheStorage) :
  cache_keys name (caches_open name cs) = cache_keys name cs.
Proof.
  unfold cache_keys, caches_open.
  destruct (caches_has name cs) eqn:E; [reflexivity|].
  assert (Hnone : bucket name cs = None).
  { destruct (bucket name cs) eqn:B; [|reflexivity].
    rewrite bucket_caches_has in E by eauto. discriminate. }
  rewrite Hnone. unfold bucket in *.
  induction cs as [|c cs IH]; cbn in *.
  - unfold named. cbn. rewrite String.eqb_refl. cbn.
    rewrite map_to_list_empty. reflexivity.
  - destruct (named name c); [discriminate|].
    apply IH; [exact E | exact Hnone].
Qed.

(** X6.  The periodic update keeps the set of stored requests and
    refreshes what it can.  In a dynamic bucket whose keys are URLs without
    fragment, as the cache files them, the bucket afterwards answers
    exactly the requests it answered before; an entry whose fetch brought
    an ok response that [cache.put] accepts (an http(s) URL, not a 206)
    holds that response, and an entry whose fetch failed, was answered
    with another status or was refused by [cache.put] holds what it
    held. *)
Theorem updateCache_refreshes_entries (net : network) (st : Worker)
    (key : string) :
  Forall (fun k => cache_key k = k) (cache_keys DYNAMIC_CACHE (caches st)) ->
  cache_match DYNAMIC_CACHE key (caches (updateCache net st)) =
  match cache_match DYNAMIC_CACHE key (caches st) with
  | Some old =>
      match fresh_answer net (mkRequest key "GET" "") with
      | Some r => Some r
      | None => Some old
      end
  | None => None
  end.
Proof.
  intros Hkeys. unfold updateCache, with_caches. cbn [caches].
  rewrite fold_refresh_entry;
    [|cbn [caches]; apply caches_has_open
     |cbn [caches]; rewrite cache_keys_open; exact Hkeys].
  cbn [caches]. rewrite cache_keys_stored, cache_match_open.
  destruct (cache_match DYNAMIC_CACHE key (caches st));
    destruct (fresh_answer net (mkRequest key "GET" "")); reflexivity.
Qed.

Lemma updateCache_refreshes_entries_witness :
  cache_match DYNAMIC_CACHE (url font_stylesheet)
    (caches (updateCache (answers partial_206) worker_with_font)) =
  Some font_200.
Proof.
  rewrite (updateCache_refreshes_entries (answers partial_206) worker_with_font
             (url font_stylesheet)).
  - reflexivity.
  - apply (bool_decide_unpack _). vm_compute. exact I.
Defined.

Lemma updateCache_example :
  cache_match DYNAMIC_CACHE (url font_stylesheet)
    (caches (updateCache (answers font_new) worker_with_font)) = Some font_new /\
  cache_match DYNAMIC_CACHE (url font_stylesheet)
    (caches (updateCache (answers error_500) worker_with_font)) = Some font_200 /\
  caches (updateCache offline worker_with_font) = caches worker_with_font.
Proof. repeat split; vm_compute; reflexivity. Qed.

Lemma fold_refresh_state (net : network) (keys : list string) (st : Worker)
    (name : string) :
  name <> DYNAMIC_CACHE ->
  networkRequests (fold_left (refresh net) keys st) =
    networkRequests st + List.length keys /\
  cacheHits (fold_left (refresh net) keys st) = cacheHits st /\
  cacheMisses (fold_left (refresh net) keys st) = cacheMisses st /\
  bucket name (caches (fold_left (refresh net) keys st)) = bucket name (caches st).
Proof.
  intros Hn. revert st. induction keys as [|k keys IH]; intros st;
    cbn [fold_left List.length].
  - rewrite Nat.add_0_r. auto.
  - destruct (IH (refresh net st k)) as (-> & -> & -> & ->).
    unfold refresh, fetch. destruct (net _) as [|r];
      cbn [networkRequests cacheHits cacheMisses caches count_request].
    + repeat split; lia.
    + destruct (ok r);
        cbn [networkRequests cacheHits cacheMisses caches count_request with_caches];
        repeat split; try lia.
      apply bucket_cache_put_other. congruence.
Qed.

(** X7.  The periodic update fetches once per entry of the dynamic bucket,
    does not touch the hit and miss counters, and leaves every other bucket
    as it was. *)
Theorem updateCache_one_fetch_per_entry (net : network) (st : Worker)
    (name : string) :
  name <> DYNAMIC_CACHE ->
  getNetworkRequestCount (updateCache net st) =
    getNetworkRequestCount st +
    List.length (cache_keys DYNAMIC_CACHE (caches st)) /\
  cacheHits (updateCache net st) = cacheHits st /\
  cacheMisses (updateCache net st) = cacheMisses st /\
  bucket name (caches (updateCache net st)) = bucket name (caches st).
Proof.
  intros Hn. unfold updateCache, getNetworkRequestCount.
  destruct (fold_refresh_state net
              (cache_keys DYNAMIC_CACHE
                 (caches (with_caches (caches_open DYNAMIC_CACHE) st)))
              (with_caches (caches_open DYNAMIC_CACHE) st) name Hn)
    as (-> & -> & -> & ->).
  unfold with_caches. cbn [caches networkRequests cacheHits cacheMisses].
  rewrite cache_keys_open.
  repeat split. apply bucket_open_other. congruence.
Qed.

Lemma updateCache_one_fetch_per_entry_witness :
  getNetworkRequestCount (updateCache offline worker_with_font) = 1 /\
  bucket STATIC_CACHE (caches (updateCache offline worker_with_font)) = Some ∅.
Proof.
  destruct (updateCache_one_fetch_per_entry offline worker_with_font
              STATIC_CACHE ltac:(discriminate)) as (H1 & _ & _ & H2).
  split; [exact H1 | exact H2].
Defined.

(** ** Background sync, run after run *)

Lemma syncContactForm_lookup (net : replay_network) (store : RequestStore)
    (id : string) :
  snd (syncContactForm net store) !! id =
  match store !! id with
  | Some request =>
      if replay_succeeds net (id, request) then None else Some request
  | None => None
  end.
Proof.
  unfold syncContactForm. rewrite fold_replay_lookup, existsb_stored. cbn [snd].
  destruct (store !! id) as [request|]; [|reflexivity].
  destruct (replay_succeeds net (id, request)); reflexivity.
Qed.

(** X8.  A sync event, whatever its tag and whatever the network does, only
    ever removes records: every record in the queue afterwards was in the
    queue before, under the same id and with the same content. *)
Theorem sync_listener_only_removes (tag : string) (net : replay_network)
    (store : RequestStore) :
  snd (sync_listener tag net store) ⊆ store.
Proof.
  unfold sync_listener. destruct (String.eqb tag "contact-form"); [|done].
  apply map_subseteq_spec. intros id request H.
  rewrite syncContactForm_lookup in H.
  destruct (store !! id) as [request'|]; [|discriminate].
  destruct (replay_succeeds net (id, request')); [discriminate | exact H].
Qed.

(** X9.  The two extremes of a sync: when the replay of every queued record is
    answered the queue is empty afterwards, and when none is answered the
    queue is exactly what it was, although every record was tried. *)
Theorem syncContactForm_all_or_none (net : replay_network)
    (store : RequestStore) :
  ((forall id request, store !! id = Some request ->
      replay_succeeds net (id, request) = true) ->
   snd (syncContactForm net store) = ∅) /\
  ((forall id request, store !! id = Some request ->
      replay_succeeds net (id, request) = false) ->
   snd (syncContactForm net store) = store /\
   List.length (fst (syncContactForm net store)) = size store).
Proof.
  split.
  - intros Hall. apply map_eq. intros id.
    rewrite syncContactForm_lookup, lookup_empty.
    destruct (store !! id) as [request|] eqn:L; [|reflexivity].
    rewrite (Hall id request L). reflexivity.
  - intros Hnone. split.
    + apply map_eq. intros id. rewrite syncContactForm_lookup.
      destruct (store !! id) as [request|] eqn:L; [|reflexivity].
      rewrite (Hnone id request L). reflexivity.
    + unfold syncContactForm. rewrite fold_replay_log. cbn [fst app].
      rewrite length_map. apply stored_length.
Qed.

Lemma syncContactForm_all_or_none_witness :
  snd (syncContactForm always_answered queued) = ∅ /\
  snd (syncContactForm never_answered queued) = queued.
Proof.
  split.
  - destruct (syncContactForm_all_or_none always_answered queued) as [H _].
    apply H. reflexivity.
  - destruct (syncContactForm_all_or_none never_answered queued) as [_ H].
    apply H. reflexivity.
Defined.

(** X10.  A second sync on the same network finds only the records whose replay
    failed, tries each of them again, and leaves the queue as the first
    sync left it. *)
Theorem syncContactForm_twice (net : replay_network) (store : RequestStore) :
  snd (syncContactForm net (snd (syncContactForm net store))) =
    snd (syncContactForm net store) /\
  forall id,
    In id (fst (syncContactForm net (snd (syncContactForm net store)))) <->
    exists request,
      store !! id = Some request /\ replay_succeeds net (id, request) = false.
Proof.
  split.
  - apply map_eq. intros id. rewrite !syncContactForm_lookup.
    destruct (store !! id) as [request|]; [|reflexivity].
    destruct (replay_succeeds net (id, request)) eqn:R; [reflexivity|].
    rewrite R. reflexivity.
  - intros id. unfold syncContactForm at 1. rewrite fold_replay_log.
    cbn [fst app]. rewrite in_map_iff. split.
    + intros ([i request] & Hi & Hin). cbn in Hi. subst i.
      apply list_elem_of_In, stored_elem in Hin.
      rewrite syncContactForm_lookup in Hin.
      destruct (store !! id) as [request'|]; [|discriminate].
      destruct (replay_succeeds net (id, request')) eqn:R; [discriminate|].
      exists request'. split; [reflexivity | exact R].
    + intros (request & L & R). exists (id, request). split; [reflexivity|].
      apply list_elem_of_In, stored_elem.
      rewrite syncContactForm_lookup, L, R. reflexivity.
Qed.

Lemma syncContactForm_twice_example :
  fst (syncContactForm contact_down (snd (syncContactForm contact_down queued))) =
  ["abc"].
Proof. vm_compute. reflexivity. Qed.

(** ** Activation, again *)

Lemma filter_current_twice (cs : CacheStorage) :
  List.filter (fun c => negb (stale (fst c)))
    (List.filter (fun c => negb (stale (fst c))) cs) =
  List.filter (fun c => negb (stale (fst c))) cs.
Proof.
  induction cs as [|c cs IH]; cbn; [reflexivity|].
  destruct (stale (fst c)) eqn:E; cbn; [exact IH|].
  rewrite E. cbn. congruence.
Qed.

Lemma no_stale_keys_left (cs : CacheStorage) :
  List.filter stale
    (caches_keys (List.filter (fun c => negb (stale (fst c))) cs)) = [].
Proof.
  unfold caches_keys. induction cs as [|c cs IH]; cbn; [reflexivity|].
  destruct (stale (fst c)) eqn:E; cbn; [exact IH|].
  rewrite E. exact IH.
Qed.

(** X11.  Activating twice is activating once: on the storage an activation
    leaves, a further activation deletes nothing and goes straight to
    claiming the clients. *)
Theorem activate_idempotent (cs : CacheStorage) :
  activate (snd (activate cs)) = ([ClientsClaimed], snd (activate cs)).
Proof.
  rewrite (surjective_pairing (activate (snd (activate cs)))).
  rewrite (activate_caches (snd (activate cs))).
  rewrite activate_caches, filter_current_twice.
  unfold activate. cbn [fst]. rewrite no_stale_keys_left. reflexivity.
Qed.

(** ** Installation, bucket by bucket *)

Lemma fold_put_keeps (name name' key : string)
    (entries : list (string * Response)) (cs : CacheStorage) :
  is_Some (cache_match name' key cs) ->
  is_Some (cache_match name' key
             (fold_left (fun acc e => cache_store name (fst e) (snd e) acc)
                        entries cs)).
Proof.
  revert cs. induction entries as [|e entries IH]; intros cs H;
    cbn [fold_left]; [exact H|].
  apply IH, cache_store_keeps, H.
Qed.

Lemma cache_addAll_keeps (origin : string) (net : network)
    (name name' key : string) (urls : list string) (cs : CacheStorage) :
  is_Some (cache_match name' key cs) ->
  is_Some (cache_match name' key (snd (cache_addAll origin net name urls cs))).
Proof.
  intros H. unfold cache_addAll.
  destruct (fetch_all origin net urls); cbn [snd]; [|exact H].
  destruct (bool_decide _); cbn [snd]; [|exact H].
  apply fold_put_keeps, H.
Qed.

(** X12.  A failed installation is not undone: the two buckets are filled
    independently.  When one manifest has an unreachable entry the install
    promise rejects, and yet the bucket of the other manifest, if all of
    its entries are reachable, ends up holding every one of them. *)
Theorem install_fills_buckets_independently (origin : string) (net : network)
    (cs : CacheStorage) :
  (forallb (reachable origin net) STATIC_ASSETS = true ->
   forallb (reachable origin net) EXTERNAL_RESOURCES = false ->
   fst (install origin net cs) = InstallRejected /\
   forall u, In u STATIC_ASSETS ->
     exists r,
       net (mkRequest (absolute origin u) "GET" "") = Fulfilled r /\
       cache_match STATIC_CACHE (absolute origin u)
         (snd (install origin net cs)) = Some r) /\
  (forallb (reachable origin net) STATIC_ASSETS = false ->
   forallb (reachable origin net) EXTERNAL_RESOURCES = true ->
   fst (install origin net cs) = InstallRejected /\
   forall u, In u EXTERNAL_RESOURCES ->
     exists r,
       net (mkRequest (absolute origin u) "GET" "") = Fulfilled r /\
       cache_match DYNAMIC_CACHE (absolute origin u)
         (snd (install origin net cs)) = Some r).
Proof.
  split; intros Hs Hd.
  - split; [apply install_rejects; right; exact Hd|].
    intros u Hu. apply install_static_stored; assumption.
  - split; [apply install_rejects; left; exact Hs|].
    intros u Hu. apply install_dynamic_stored; assumption.
Qed.

Lemma install_fills_buckets_independently_witness :
  fst (install site fonts_down old_storage) = InstallRejected /\
  exists r,
    fonts_down (mkRequest (absolute site "/styles.css") "GET" "") = Fulfilled r /\
    cache_match STATIC_CACHE (absolute site "/styles.css")
      (snd (install site fonts_down old_storage)) = Some r.
Proof.
  destruct (install_fills_buckets_independently site fonts_down old_storage)
    as [H _].
  destruct H as [H1 H2]; [reflexivity | reflexivity |].
  split; [exact H1|]. apply H2. cbn. tauto.
Defined.

(** X13.  An installation, whether it succeeds or fails, evicts nothing: every
    entry of every bucket that was there before is still answered by its
    bucket afterwards, and a bucket of another version holds exactly what
    it held. *)
Theorem install_never_evicts (origin : string) (net : network)
    (cs : CacheStorage) (name key : string) :
  (is_Some (cache_match name key cs) ->
   is_Some (cache_match name key (snd (install origin net cs)))) /\
  (name <> STATIC_CACHE -> name <> DYNAMIC_CACHE ->
   cache_match name key (snd (install origin net cs)) = cache_match name key cs).
Proof.
  split.
  - intros H. rewrite install_caches.
    apply cache_addAll_keeps. rewrite cache_match_open_any.
    apply cache_addAll_keeps. rewrite cache_match_open_any. exact H.
  - intros Hs Hd. unfold cache_match.
    rewrite install_other_buckets by assumption. reflexivity.
Qed.

Lemma install_never_evicts_witness :
  is_Some (cache_match "static-v1" (site ++ "/")
             (snd (install site fonts_down old_storage))) /\
  cache_match "static-v1" (site ++ "/") (snd (install site (answers page_200) old_storage)) =
    cache_match "static-v1" (site ++ "/") old_storage.
Proof.
  split.
  - destruct (install_never_evicts site fonts_down old_storage
                "static-v1" (site ++ "/")) as [H _].
    apply H. vm_compute. eauto.
  - destruct (install_never_evicts site (answers page_200) old_storage
                "static-v1" (site ++ "/")) as [_ H].
    apply H; discriminate.
Defined.

(** ** From installation to offline use *)

Lemma cache_match_found (name key : string) (cs : CacheStorage) :
  is_Some (cache_match name key cs) -> is_Some (first_entry key cs).
Proof.
  unfold cache_match, bucket. intros [r Hr].
  induction cs as [|c cs IH]; cbn in *; [discriminate|].
  destruct (snd c !! key) as [r'|] eqn:L; [eauto|].
  destruct (named name c); cbn in Hr; [congruence | exact (IH Hr)].
Qed.

Lemma activate_keeps_current (name key : string) (cs : CacheStorage) :
  stale name = false ->
  cache_match name key (snd (activate cs)) = cache_match name key cs.
Proof.
  intros H. unfold cache_match.
  rewrite activate_caches, bucket_filter_current, H. reflexivity.
Qed.

Lemma installed_entry_found (origin : string) (net : network)
    (cs : CacheStorage) (u dest : string) :
  forallb (reachable origin net) (STATIC_ASSETS ++ EXTERNAL_RESOURCES)%list = true ->
  In u (STATIC_ASSETS ++ EXTERNAL_RESOURCES)%list ->
  is_Some (originalCacheMatch (mkRequest (absolute origin u) "GET" dest)
             (snd (activate (snd (install origin net cs))))).
Proof.
  intros Hall Hu. unfold originalCacheMatch, request_key. cbn [method url].
  change (String.eqb "GET" "GET") with true. cbv iota. cbn [mbind option_bind].
  rewrite (manifest_key origin u Hu).
  rewrite forallb_app in Hall.
  apply andb_true_iff in Hall as [Hs Hd].
  apply in_app_or in Hu as [Hu|Hu].
  - destruct (install_static_stored origin net cs u Hs Hu) as (r & _ & Hm).
    apply (cache_match_found STATIC_CACHE).
    rewrite activate_keeps_current by reflexivity. rewrite Hm. eauto.
  - destruct (install_dynamic_stored origin net cs u Hd Hu) as (r & _ & Hm).
    apply (cache_match_found DYNAMIC_CACHE).
    rewrite activate_keeps_current by reflexivity. rewrite Hm. eauto.
Qed.

(** X14.  Once a version has installed and activated, the site works without a
    network: a request for any entry of the two manifests is a cache hit,
    answered by cache first without a fetch, and the offline fallback for
    a page finds the root page. *)
Theorem precached_assets_served_offline (origin : string) (net down : network)
    (cs : CacheStorage) (u dest : string) (page : Request)
    (hits misses requests : nat) :
  forallb (reachable origin net) (STATIC_ASSETS ++ EXTERNAL_RESOURCES)%list = true ->
  In u (STATIC_ASSETS ++ EXTERNAL_RESOURCES)%list ->
  destination page = "document" ->
  let st := mkWorker (snd (activate (snd (install origin net cs))))
                     hits misses requests in
  (exists r,
      cacheFirst origin down (mkRequest (absolute origin u) "GET" dest) st =
      (Some r, count_hit st)) /\
  is_Some (fst (getOfflineFallback origin page st)).
Proof.
  intros Hall Hu Hpage st. split.
  - destruct (installed_entry_found origin net cs u dest Hall Hu) as [r Hr].
    exists r. apply cacheFirst_hit. exact Hr.
  - rewrite (getOfflineFallback_document origin page st Hpage).
    apply (installed_entry_found origin net cs "/index.html" "" Hall).
    cbn. tauto.
Qed.

Lemma precached_assets_served_offline_witness :
  (exists r,
      cacheFirst site offline
        (mkRequest (absolute site "/styles.css") "GET" "style")
        (mkWorker (snd (activate (snd (install site (answers page_200) old_storage))))
                  0 0 0) =
      (Some r,
       count_hit
         (mkWorker (snd (activate (snd (install site (answers page_200) old_storage))))
                   0 0 0))) /\
  is_Some (fst (getOfflineFallback site page_request
                  (mkWorker (snd (activate (snd (install site (answers page_200)
                                                   old_storage))))
                            0 0 0))).
Proof.
  apply (precached_assets_served_offline site (answers page_200) offline
           old_storage "/styles.css" "style" page_request 0 0 0).
  - reflexivity.
  - cbn. tauto.
  - reflexivity.
Defined.

(** ** Counting live fetches *)

(** X15.  The request counter the worker reports goes up by exactly one for each
    request a strategy handles, except for a cache-first hit, which costs
    nothing; and stale while revalidate, which looks into its bucket
    directly, never moves the hit and miss counters. *)
Theorem run_strategy_counts_fetches (origin : string) (s : strategy)
    (net : network) (request : Request) (st : Worker) :
  getNetworkRequestCount (snd (run_strategy origin s net request st)) =
    getNetworkRequestCount st +
    match s, originalCacheMatch request (caches st) with
    | CACHE_FIRST, Some _ => 0
    | _, _ => 1
    end /\
  (s = STALE_WHILE_REVALIDATE ->
   cacheHits (snd (run_strategy origin s net request st)) = cacheHits st /\
   cacheMisses (snd (run_strategy origin s net request st)) = cacheMisses st).
Proof.
  unfold getNetworkRequestCount. split.
  - destruct s; cbn [run_strategy].
    + unfold cacheFirst, caches_match, fetch.
      destruct (originalCacheMatch request (caches st)); cbn; [lia|].
      destruct (net request) as [|r].
      * destruct (getOfflineFallback_state origin request
                    (count_request (count_miss st))) as [_ ->]. cbn. lia.
      * destruct (ok r); cbn; lia.
    + unfold networkFirst, caches_match, fetch.
      destruct (net request) as [|r]; cbn.
      * destruct (originalCacheMatch request (caches st)); cbn; [lia|].
        destruct (getOfflineFallback_state origin request
                    (count_miss (count_request st))) as [_ ->]. cbn. lia.
      * destruct (originalCacheMatch request (caches st));
          destruct (ok r); cbn; lia.
    + unfold staleWhileRevalidate, fetch, revalidate, with_caches.
      destruct (net request) as [|r]; cbn;
        [|destruct (ok r); cbn];
        destruct (originalCacheMatch request (caches st)); lia.
  - intros ->. cbn [run_strategy].
    unfold staleWhileRevalidate, fetch, revalidate, with_caches.
    destruct (net request) as [|r]; cbn; [split; reflexivity|].
    destruct (ok r); split; reflexivity.
Qed.

Lemma run_strategy_counts_fetches_witness :
  cacheHits (snd (run_strategy site STALE_WHILE_REVALIDATE offline
                    font_stylesheet worker_with_font)) = 0 /\
  cacheMisses (snd (run_strategy site STALE_WHILE_REVALIDATE offline
                      font_stylesheet worker_with_font)) = 0.
Proof.
  destruct (run_strategy_counts_fetches site STALE_WHILE_REVALIDATE offline
              font_stylesheet worker_with_font) as [_ H].
  apply H. reflexivity.
Defined.

(** ** The cache size the worker reports *)

Lemma fold_add (f : string -> nat) (names : list string) (a : nat) :
  fold_left (fun total name => total + f name) names a =
  a + sum_list_with f names.
Proof.
  revert a. induction names as [|n names IH]; intros a; cbn; [lia|].
  rewrite IH. lia.
Qed.

Lemma sum_by_name (f : string -> nat) (g : string * Cache -> nat)
    (cs : CacheStorage) :
  (forall c, In c cs -> f (fst c) = g c) ->
  sum_list_with f (List.map fst cs) = sum_list_with g cs.
Proof.
  induction cs as [|c cs IH]; cbn; [reflexivity|].
  intros H. rewrite (H c) by (left; reflexivity).
  rewrite IH; [reflexivity|]. intros c' Hc'. apply H. right. exact Hc'.
Qed.

(** With distinct bucket names, opening by name finds the bucket itself. *)
Lemma bucket_of_member (cs : CacheStorage) (c : string * Cache) :
  NoDup (caches_keys cs) -> In c cs -> bucket (fst c) cs = Some (snd c).
Proof.
  unfold bucket, caches_keys. induction cs as [|c' cs IH]; cbn; [intros _ []|].
  intros Hnd Hin. apply NoDup_cons in Hnd as [Hnotin Hnd].
  destruct Hin as [->|Hin].
  - unfold named. rewrite String.eqb_refl. reflexivity.
  - destruct (named (fst c) c') eqn:E.
    + exfalso. apply Hnotin. unfold named in E. apply String.eqb_eq in E.
      rewrite E. apply list_elem_of_In, List.in_map, Hin.
    + apply IH; assumption.
Qed.

Lemma caches_has_member (cs : CacheStorage) (c : string * Cache) :
  In c cs -> caches_has (fst c) cs = true.
Proof.
  intros H. unfold caches_has. apply existsb_exists. exists c.
  split; [exact H | apply String.eqb_refl].
Qed.

Lemma getCacheSize_sum (cs : CacheStorage) :
  NoDup (caches_keys cs) ->
  getCacheSize cs = sum_list_with (fun c : string * Cache => size (snd c)) cs.
Proof.
  intros Hnd. unfold getCacheSize. rewrite fold_add. cbn [Nat.add].
  unfold caches_keys. apply sum_by_name. intros c Hin.
  unfold caches_open. rewrite (caches_has_member cs c Hin).
  unfold cache_keys. rewrite (bucket_of_member cs c Hnd Hin).
  rewrite length_fmap. apply length_map_to_list.
Qed.

(** X16.  The reported size counts every entry of every bucket once: it is the
    sum of the sizes of the buckets, and so it is zero exactly when every
    bucket is empty. *)
Theorem getCacheSize_counts_entries (cs : CacheStorage) :
  NoDup (caches_keys cs) ->
  getCacheSize cs = sum_list_with (fun c : string * Cache => size (snd c)) cs /\
  (getCacheSize cs = 0 <-> forall c, In c cs -> snd c = ∅).
Proof.
  intros Hnd. split; [apply getCacheSize_sum, Hnd|].
  rewrite (getCacheSize_sum cs Hnd). clear Hnd.
  induction cs as [|c cs IH]; cbn.
  - split; [intros _ c [] | reflexivity].
  - split.
    + intros H c' [<-|Hin].
      * apply map_size_empty_iff. lia.
      * apply IH; [lia | exact Hin].
    + intros H. rewrite (H c) by (left; reflexivity).
      rewrite map_size_empty. cbn. apply IH. intros c' Hc'. apply H. right.
      exact Hc'.
Qed.

Lemma getCacheSize_counts_entries_witness :
  getCacheSize (caches worker_with_font) = 1.
Proof.
  destruct (getCacheSize_counts_entries (caches worker_with_font)) as [H _].
  - apply (bool_decide_unpack _). vm_compute. exact I.
  - rewrite H. reflexivity.
Defined.

Lemma caches_keys_store (name key : string) (r : Response) (cs : CacheStorage) :
  caches_keys (cache_store name key r cs) = caches_keys cs.
Proof.
  unfold caches_keys, cache_store. rewrite List.map_map.
  apply List.map_ext. intros c. destruct (named name c); reflexivity.
Qed.

Lemma caches_has_elem (name : string) (cs : CacheStorage) :
  caches_has name cs = false -> name ∉ caches_keys cs.
Proof.
  unfold caches_has, caches_keys. intros H Hin.
  apply list_elem_of_In, List.in_map_iff in Hin as (c & Hc & Hin).
  assert (Ht : existsb (named name) cs = true).
  { apply existsb_exists. exists c. split; [exact Hin|].
    unfold named. rewrite Hc. apply String.eqb_refl. }
  congruence.
Qed.

Lemma caches_keys_open_NoDup (name : string) (cs : CacheStorage) :
  NoDup (caches_keys cs) -> NoDup (caches_keys (caches_open name cs)).
Proof.
  intros Hnd. unfold caches_open. destruct (caches_has name cs) eqn:E;
    [exact Hnd|].
  unfold caches_keys. rewrite List.map_app. cbn.
  apply NoDup_app. split; [exact Hnd|]. split.
  - intros x Hx Hx'. apply list_elem_of_singleton in Hx'. subst x.
    exact (caches_has_elem name cs E Hx).
  - apply NoDup_singleton.
Qed.

(** The entries a put adds, summed over the buckets, when the key is in no
    bucket yet: one per bucket of that name. *)
Lemma sum_store_fresh (name key : string) (r : Response) (cs : CacheStorage) :
  first_entry key cs = None ->
  sum_list_with (fun c : string * Cache => size (snd c)) (cache_store name key r cs) =
  sum_list_with (fun c : string * Cache => size (snd c)) cs +
  List.length (List.filter (named name) cs).
Proof.
  unfold cache_store. induction cs as [|c cs IH]; cbn; [reflexivity|].
  destruct (snd c !! key) eqn:L; [discriminate|]. intros Hmiss.
  rewrite (IH Hmiss). destruct (named name c); cbn; [|lia].
  rewrite map_size_insert_None by exact L. lia.
Qed.

Lemma one_bucket_per_name (name : string) (cs : CacheStorage) :
  NoDup (caches_keys cs) ->
  caches_has name cs = true ->
  List.length (List.filter (named name) cs) = 1.
Proof.
  unfold caches_keys, caches_has. induction cs as [|c cs IH]; cbn;
    [discriminate|].
  intros Hnd Hhas. apply NoDup_cons in Hnd as [Hnotin Hnd].
  destruct (named name c) eqn:E; cbn.
  - f_equal. apply length_zero_iff_nil.
    destruct (List.filter (named name) cs) as [|c' l] eqn:F; [reflexivity|].
    exfalso. apply Hnotin.
    assert (Hc' : In c' (List.filter (named name) cs)) by (rewrite F; left; reflexivity).
    apply List.filter_In in Hc' as [Hin Hn].
    unfold named in E, Hn. apply String.eqb_eq in E, Hn.
    rewrite E, <- Hn. apply list_elem_of_In, List.in_map, Hin.
  - apply IH; assumption.
Qed.

Lemma sum_open (name : string) (cs : CacheStorage) :
  sum_list_with (fun c : string * Cache => size (snd c)) (caches_open name cs) =
  sum_list_with (fun c : string * Cache => size (snd c)) cs.
Proof.
  unfold caches_open. destruct (caches_has name cs); [reflexivity|].
  rewrite sum_list_with_app. cbn. rewrite map_size_empty. lia.
Qed.

(** What [caches.match] misses for a request that [cache.put] accepts is
    missing from every bucket under the key of the request. *)
Lemma cacheable_miss (request : Request) (r : Response) (cs : CacheStorage) :
  cacheable request r = true ->
  originalCacheMatch request cs = None ->
  first_entry (cache_key (url request)) cs = None.
Proof.
  intros Hc. unfold originalCacheMatch.
  rewrite (cacheable_request_key request r Hc). cbn. auto.
Qed.

(** X17.  The reported size after a request handled cache first: one more
    when [caches.match] found the request in no bucket and the fetch
    brought an ok response that [cache.put] accepted (a GET of an http(s)
    URL, not a 206), and the same in every other case: a hit, a failed
    fetch, a response that is not ok, a response that is refused. *)
Theorem getCacheSize_after_cacheFirst (origin : string) (net : network)
    (request : Request) (st : Worker) :
  NoDup (caches_keys (caches st)) ->
  getCacheSize (caches (snd (cacheFirst origin net request st))) =
  getCacheSize (caches st) +
  match originalCacheMatch request (caches st), fresh_answer net request with
  | None, Some _ => 1
  | _, _ => 0
  end.
Proof.
  intros Hnd. unfold cacheFirst, caches_match, fetch, fresh_answer.
  destruct (originalCacheMatch request (caches st)) eqn:Hm;
    [cbn [snd caches count_hit]; lia|].
  destruct (net request) as [|r].
  - destruct (getOfflineFallback_state origin request
                (count_request (count_miss st))) as [-> _].
    cbn [caches count_request count_miss]. lia.
  - destruct (ok r); cbn [snd caches with_caches count_request count_miss andb];
      [|lia].
    unfold cache_put. destruct (cacheable request r) eqn:Hc.
    + rewrite !getCacheSize_sum;
        [|exact Hnd
         |rewrite caches_keys_store; apply caches_keys_open_NoDup, Hnd].
      rewrite sum_store_fresh
        by (rewrite first_entry_open; exact (cacheable_miss _ _ _ Hc Hm)).
      rewrite sum_open.
      rewrite one_bucket_per_name;
        [reflexivity | apply caches_keys_open_NoDup, Hnd | apply caches_has_open].
    + rewrite !getCacheSize_sum;
        [|exact Hnd | apply caches_keys_open_NoDup, Hnd].
      rewrite sum_open. lia.
Qed.

Lemma getCacheSize_after_cacheFirst_witness :
  getCacheSize
    (caches (snd (cacheFirst site (answers page_200) page_request worker_with_font))) =
  2 /\
  getCacheSize
    (caches (snd (cacheFirst site (answers partial_206) video_request
                    worker_with_font))) = 1.
Proof.
  split.
  - rewrite (getCacheSize_after_cacheFirst site (answers page_200) page_request
               worker_with_font).
    + reflexivity.
    + apply (bool_decide_unpack _). vm_compute. exact I.
  - rewrite (getCacheSize_after_cacheFirst site (answers partial_206)
               video_request worker_with_font).
    + reflexivity.
    + apply (bool_decide_unpack _). vm_compute. exact I.
Defined.

(** ** What the periodic update does not reach *)

Lemma first_entry_store_other (name key k : string) (r : Response)
    (cs : CacheStorage) :
  key <> k ->
  first_entry key (cache_store name k r cs) = first_entry key cs.
Proof.
  intros Hne. unfold cache_store. induction cs as [|c cs IH]; cbn;
    [reflexivity|].
  destruct (named name c); cbn [snd].
  - rewrite lookup_insert_ne by congruence. rewrite IH. reflexivity.
  - rewrite IH. reflexivity.
Qed.

Lemma fold_refresh_first_entry (net : network) (keys : list string)
    (st : Worker) (key : string) :
  Forall (fun k => cache_key k <> key) keys ->
  first_entry key (caches (fold_left (refresh net) keys st)) =
  first_entry key (caches st).
Proof.
  revert st. induction keys as [|k keys IH]; intros st Hkeys;
    cbn [fold_left]; [reflexivity|].
  apply Forall_cons in Hkeys as [Hk Hkeys].
  rewrite IH by exact Hkeys.
  unfold refresh, fetch, cache_put. destruct (net _) as [|r]; [reflexivity|].
  destruct (ok r); [|reflexivity]. cbn [caches with_caches count_request].
  destruct (cacheable _ r); [|reflexivity]. cbn [url].
  apply first_entry_store_other. congruence.
Qed.

Lemma cache_match_missing (name key : string) (cs : CacheStorage) :
  first_entry key cs = None -> cache_match name key cs = None.
Proof.
  intros H. destruct (cache_match name key cs) eqn:E; [|reflexivity].
  destruct (cache_match_found name key cs) as [r' Hr']; [eauto | congruence].
Qed.

(** What [caches.match] finds under a key the dynamic bucket does not
    hold is the same before and after a periodic update. *)
Lemma updateCache_first_entry (net : network) (st : Worker) (key : string) :
  Forall (fun k => cache_key k = k) (cache_keys DYNAMIC_CACHE (caches st)) ->
  cache_match DYNAMIC_CACHE key (caches st) = None ->
  first_entry key (caches (updateCache net st)) =
  first_entry key (caches st).
Proof.
  intros Hwf Hnone. unfold updateCache.
  rewrite fold_refresh_first_entry.
  - cbn [caches with_caches]. apply first_entry_open.
  - cbn [caches with_caches]. rewrite cache_keys_open.
    rewrite Forall_forall in Hwf. apply Forall_forall. intros k Hin.
    rewrite (Hwf k Hin). intros ->.
    assert (Hex : existsb (String.eqb key)
                    (cache_keys DYNAMIC_CACHE (caches st)) = true).
    { apply existsb_exists. exists key. split;
        [apply list_elem_of_In, Hin | apply String.eqb_refl]. }
    rewrite cache_keys_stored, Hnone in Hex. discriminate.
Qed.

(** X18.  A response the fetch listener has cached is out of reach of the
    periodic update.  For a GET request with a browser URL that
    [caches.match] found in no bucket and whose fetch was answered with an
    ok response that [cache.put] accepted (an http(s) URL, not a 206), the
    response goes into the static bucket; a periodic sync event, of any
    tag and on any network, leaves it there, and the next request is
    answered with that same response, without a fetch.  The dynamic bucket
    is one whose keys are URLs without fragment, as the cache files
    them. *)
Theorem periodic_update_skips_listener_entries (origin : string)
    (net later down : network) (tag : string) (request : Request)
    (st : Worker) (r : Response) :
  method request = "GET" ->
  includes "/" (url request) = true ->
  originalCacheMatch request (caches st) = None ->
  Forall (fun k => cache_key k = k) (cache_keys DYNAMIC_CACHE (caches st)) ->
  net request = Fulfilled r ->
  ok r = true ->
  cacheable request r = true ->
  exists st1,
    handle_fetch origin net request st = Some (Some r, st1) /\
    handle_fetch origin down request (periodicsync_listener tag later st1) =
      Some (Some r, count_hit (periodicsync_listener tag later st1)).
Proof.
  intros Hm Hs Hmiss Hwf Hnet Hok Hc.
  exists (snd (cacheFirst origin net request st)).
  unfold handle_fetch. rewrite (fetch_listener_slash _ Hm Hs).
  cbn [run_strategy]. split.
  - rewrite (cacheFirst_miss _ _ _ _ Hmiss), Hnet, Hok. reflexivity.
  - f_equal. apply cacheFirst_hit.
    assert (Hcaches : caches (snd (cacheFirst origin net request st)) =
                      cache_put STATIC_CACHE request r
                        (caches_open STATIC_CACHE (caches st))).
    { rewrite (cacheFirst_miss _ _ _ _ Hmiss), Hnet, Hok. reflexivity. }
    assert (Hstored : originalCacheMatch request
                        (caches (snd (cacheFirst origin net request st))) = Some r).
    { rewrite Hcaches.
      apply originalCacheMatch_cache_put; [apply caches_has_open | exact Hc |].
      rewrite originalCacheMatch_open. exact Hmiss. }
    unfold periodicsync_listener.
    destruct (String.eqb tag "cache-update"); [|exact Hstored].
    unfold originalCacheMatch in Hstored |- *.
    rewrite (cacheable_request_key request r Hc) in Hstored |- *.
    cbn [mbind option_bind] in Hstored |- *.
    rewrite updateCache_first_entry; [exact Hstored | |].
    + unfold cache_keys. rewrite Hcaches.
      rewrite bucket_put_open_other by discriminate. exact Hwf.
    + rewrite Hcaches. unfold cache_match.
      rewrite bucket_put_open_other by discriminate.
      apply (cache_match_missing DYNAMIC_CACHE).
      exact (cacheable_miss _ _ _ Hc Hmiss).
Qed.

Lemma periodic_update_skips_listener_entries_witness :
  exists st1,
    handle_fetch site (answers font_200) font_stylesheet fresh_worker =
      Some (Some font_200, st1) /\
    handle_fetch site offline font_stylesheet
      (periodicsync_listener "cache-update" (answers font_new) st1) =
    Some (Some font_200,
          count_hit (periodicsync_listener "cache-update" (answers font_new) st1)).
Proof.
  apply (periodic_update_skips_listener_entries site (answers font_200)
           (answers font_new) offline "cache-update" font_stylesheet
           fresh_worker font_200); try reflexivity.
  apply (bool_decide_unpack _). vm_compute. exact I.
Defined.
